(** * forge-npm-pkg: the configuration-to-artifact generators and the CLI flow

    A shallow embedding of the generators of [src/utils/generators] and of the
    command-line entry point [src/index.ts], with the properties of the
    specification that concern them.

    Conventions of the embedding.
    - A JavaScript string is a [string]; template literals are written with
      [++].  The double-quote character is [dq].
    - An optional property [x?: T] is an [option T]; JavaScript truthiness of
      such a property is [truthy] (strings: present and non-empty) and
      [truthyb] (booleans: present and [true]).
    - A JavaScript object whose key order is observable (it is serialised with
      [JSON.stringify]) is an association list in insertion order; assigning
      to an existing key keeps its position ([assign]).

    Revisions.  The manifest generator is modelled in its two revisions:
    [PackageJson] pins fixed versions, [PackageJsonAsync] asks the registry
    and adds the coverage, dependency-sync and release scripts.  The workflow
    generator is the one of [workflows.ts], which does not read
    [useCodecov]. *)

From Stdlib Require Import String Ascii List Bool Arith Lia.
Import ListNotations.
Open Scope string_scope.

Set Implicit Arguments.
Set Warnings "-register-all".

(** ** JavaScript values used by the generators *)

Definition dq : string := String "034"%char EmptyString.

(** [s] as a condition: [undefined] and the empty string are falsy. *)
Definition truthy (s : option string) : bool :=
  match s with
  | Some (String _ _) => true
  | _ => false
  end.

(** [b] as a condition: [undefined] and [false] are falsy. *)
Definition truthyb (b : option bool) : bool :=
  match b with
  | Some true => true
  | _ => false
  end.

(** The text a template literal interpolates for a truthy optional string. *)
Definition text (s : option string) : string :=
  match s with
  | Some t => t
  | None => EmptyString
  end.

(** [s || d] on an optional string. *)
Definition or_else (s : option string) (d : string) : string :=
  if truthy s then text s else d.

Inductive json : Type :=
| JString (s : string)
| JArray (l : list json)
| JObject (l : list (string * json)).

Definition props := list (string * json).

(** [o[k] = v]: an existing key is overwritten in place, a new one is
    appended. *)
Fixpoint assign (o : props) (k : string) (v : json) : props :=
  match o with
  | [] => [(k, v)]
  | (k', v') :: o' =>
      if String.eqb k' k then (k', v) :: o' else (k', v') :: assign o' k v
  end.

(** [o[k]]. *)
Fixpoint get (o : props) (k : string) : option json :=
  match o with
  | [] => None
  | (k', v) :: o' => if String.eqb k' k then Some v else get o' k
  end.

Definition keys (o : props) : list string := map fst o.

(** The members of an object literal: [k: v] and [...o]. *)
Inductive member : Type :=
| Prop_ (k : string) (v : json)
| Spread (o : props).

Definition add_member (o : props) (m : member) : props :=
  match m with
  | Prop_ k v => assign o k v
  | Spread src => fold_left (fun acc kv => assign acc (fst kv) (snd kv)) src o
  end.

Definition object_literal (ms : list member) : props :=
  fold_left add_member ms [].

Definition strings (l : list string) : json := JArray (map JString l).

(** [a.push(x1, ..., xn)] *)
Definition push (a xs : list string) : list string := (a ++ xs)%list.

(** ** [types.ts]: the project configuration *)

Inductive Language := typescript | javascript.
Inductive ModuleType := esm | commonjs | dual.
Inductive TestRunner := vitest | jest | none.
Inductive PackageManager := npm | pnpm | yarn | bun.

(** The interface of the current [types.ts].  The earlier revision of the
    interface, which [packageJson.ts] and [workflows.ts] import, has the
    additional flag [useChangesets] and lacks [useCodecov] and
    [useDependabot]; no generator modelled here reads [useChangesets]. *)
Record ProjectConfig := {
  packageName : string;
  language : Language;
  moduleType : ModuleType;
  testRunner : TestRunner;
  useLinting : bool;
  initGit : bool;
  setupCI : option bool;
  setupCD : option bool;
  useCodecov : option bool;
  useDependabot : option bool;
  packageManager : option PackageManager;
  description : option string;
  author : option string;
  authorEmail : option string;
  githubUsername : option string
}.

Definition language_eqb (a b : Language) : bool :=
  match a, b with
  | typescript, typescript | javascript, javascript => true
  | _, _ => false
  end.

Definition moduleType_eqb (a b : ModuleType) : bool :=
  match a, b with
  | esm, esm | commonjs, commonjs | dual, dual => true
  | _, _ => false
  end.

Definition testRunner_eqb (a b : TestRunner) : bool :=
  match a, b with
  | vitest, vitest | jest, jest | none, none => true
  | _, _ => false
  end.

(** ** [packageJson.ts] *)

Module PackageJson.

(** [generateFilesList] *)
Definition generateFilesList (config : ProjectConfig) : list string :=
  if language_eqb (language config) javascript then ["src"]
  else
    let files := ["dist"; "index.js"; "index.d.ts"] in
    if moduleType_eqb (moduleType config) dual
    then push files ["index.mjs"]
    else files.

(** [generateEntryPoints] *)
Definition generateEntryPoints (config : ProjectConfig) : props :=
  let isTypeScript := language_eqb (language config) typescript in
  let entryPoints : props := [] in
  if negb isTypeScript then
    let entryPoints := assign entryPoints "main" (JString "./src/index.js") in
    let entryPoints :=
      if moduleType_eqb (moduleType config) esm
         || moduleType_eqb (moduleType config) dual
      then assign entryPoints "module" (JString "./src/index.js")
      else entryPoints in
    assign entryPoints "exports"
      (JObject [(".", JString "./src/index.js")])
  else
    match moduleType config with
    | esm =>
        let entryPoints := assign entryPoints "main" (JString "./index.js") in
        let entryPoints := assign entryPoints "types" (JString "./index.d.ts") in
        assign entryPoints "exports"
          (JObject [(".", JObject [("types", JString "./index.d.ts");
                                   ("import", JString "./index.js")])])
    | commonjs =>
        let entryPoints := assign entryPoints "main" (JString "./index.js") in
        let entryPoints := assign entryPoints "types" (JString "./index.d.ts") in
        assign entryPoints "exports"
          (JObject [(".", JObject [("types", JString "./index.d.ts");
                                   ("require", JString "./index.js")])])
    | dual =>
        let entryPoints := assign entryPoints "main" (JString "./index.js") in
        let entryPoints := assign entryPoints "module" (JString "./index.mjs") in
        let entryPoints := assign entryPoints "types" (JString "./index.d.ts") in
        assign entryPoints "exports"
          (JObject [(".", JObject [("types", JString "./index.d.ts");
                                   ("import", JString "./index.mjs");
                                   ("require", JString "./index.js")])])
    end.

Definition scripts_t := list (string * string).

(** [scripts[k] = v] on a [Record<string, string>]. *)
Fixpoint put (o : scripts_t) (k v : string) : scripts_t :=
  match o with
  | [] => [(k, v)]
  | (k', v') :: o' =>
      if String.eqb k' k then (k', v) :: o' else (k', v') :: put o' k v
  end.

Fixpoint find (o : scripts_t) (k : string) : option string :=
  match o with
  | [] => None
  | (k', v) :: o' => if String.eqb k' k then Some v else find o' k
  end.

Definition has (o : scripts_t) (k : string) : bool :=
  match find o k with Some _ => true | None => false end.

Definition record (o : scripts_t) : json :=
  JObject (map (fun kv => (fst kv, JString (snd kv))) o).

Definition lint_ext (config : ProjectConfig) : string :=
  if language_eqb (language config) typescript then "ts" else "js".

(** [generateScripts] of [packageJson.ts] *)
Definition generateScripts (config : ProjectConfig) : scripts_t :=
  let scripts : scripts_t := [] in
  let scripts :=
    if language_eqb (language config) typescript
    then put (put scripts "build" "tsup") "typecheck" "tsc --noEmit"
    else scripts in
  let scripts :=
    if testRunner_eqb (testRunner config) vitest
    then put (put scripts "test" "vitest run") "test:watch" "vitest"
    else if testRunner_eqb (testRunner config) jest
    then put (put scripts "test" "jest") "test:watch" "jest --watch"
    else scripts in
  let scripts :=
    if useLinting config then
      let ext := lint_ext config in
      let scripts := put scripts "lint" ("eslint . --ext ." ++ ext) in
      let scripts :=
        put scripts "lint:fix" ("eslint . --ext ." ++ ext ++ " --fix") in
      let scripts :=
        put scripts "format"
          ("prettier --write " ++ dq ++ "src/**/*.{ts,js,json,md}" ++ dq) in
      put scripts "format:check"
        ("prettier --check " ++ dq ++ "src/**/*.{ts,js,json,md}" ++ dq)
    else scripts in
  let scripts :=
    if language_eqb (language config) typescript
    then put scripts "check:exports" "attw --pack"
    else scripts in
  let scripts :=
    if language_eqb (language config) typescript
    then put scripts "prepublishOnly" "npm run build"
    else scripts in
  scripts.

(** [generateDevDependencies] of [packageJson.ts] *)
Definition generateDevDependencies (config : ProjectConfig) : scripts_t :=
  let deps : scripts_t := [] in
  let deps :=
    if language_eqb (language config) typescript then
      put (put (put (put deps "typescript" "^5.3.3") "tsup" "^8.0.1")
             "@types/node" "^20.11.0") "@arethetypeswrong/cli" "^0.15.0"
    else deps in
  let deps :=
    if testRunner_eqb (testRunner config) vitest
    then put deps "vitest" "^1.2.0"
    else if testRunner_eqb (testRunner config) jest then
      let deps := put deps "jest" "^29.7.0" in
      if language_eqb (language config) typescript
      then put (put deps "ts-jest" "^29.1.1") "@types/jest" "^29.5.11"
      else deps
    else deps in
  let deps :=
    if useLinting config then
      let deps :=
        if language_eqb (language config) typescript
        then put (put deps "@typescript-eslint/eslint-plugin" "^6.19.0")
               "@typescript-eslint/parser" "^6.19.0"
        else deps in
      put (put (put deps "eslint" "^8.56.0") "prettier" "^3.2.4")
        "eslint-config-prettier" "^9.1.0"
    else deps in
  deps.

(** The author string assembled at the head of [generatePackageJson]. *)
Definition authorField (config : ProjectConfig) : string :=
  let authorField := EmptyString in
  if truthy (author config) then
    let authorField := text (author config) in
    let authorField :=
      if truthy (authorEmail config)
      then authorField ++ " <" ++ text (authorEmail config) ++ ">"
      else authorField in
    let authorField :=
      if truthy (githubUsername config)
      then authorField ++ " (https://github.com/"
             ++ text (githubUsername config) ++ ")"
      else authorField in
    authorField
  else authorField.

(** [generatePackageJson] *)
Definition generatePackageJson (config : ProjectConfig) : props :=
  let pkg := object_literal [
    Prop_ "name" (JString (packageName config));
    Prop_ "version" (JString "0.1.0");
    Prop_ "description"
      (JString (or_else (description config) "A new npm package"));
    Prop_ "type"
      (JString (if moduleType_eqb (moduleType config) commonjs
                then "commonjs" else "module"));
    Spread (generateEntryPoints config);
    Prop_ "files" (strings (generateFilesList config));
    Prop_ "scripts" (record (generateScripts config));
    Prop_ "keywords" (JArray []);
    Prop_ "author" (JString (authorField config));
    Prop_ "license" (JString "MIT");
    Prop_ "devDependencies" (record (generateDevDependencies config))
  ] in
  if truthy (githubUsername config) then
    let gh := text (githubUsername config) in
    let pkg := assign pkg "repository"
      (JObject [("type", JString "git");
                ("url", JString ("https://github.com/" ++ gh ++ "/"
                                   ++ packageName config ++ ".git"))]) in
    let pkg := assign pkg "bugs"
      (JObject [("url", JString ("https://github.com/" ++ gh ++ "/"
                                   ++ packageName config ++ "/issues"))]) in
    assign pkg "homepage"
      (JString ("https://github.com/" ++ gh ++ "/"
                  ++ packageName config ++ "#readme"))
  else pkg.

End PackageJson.

(** ** [packageJson.ts], current revision

    The revision that resolves dependency versions through the registry.  Its
    [generateFilesList] and [generateEntryPoints] are those of [PackageJson],
    character for character; [generateScripts], [generateDevDependencies] and
    [generatePackageJson] differ. *)

Module PackageJsonAsync.

Import PackageJson.

Definition generateFilesList := PackageJson.generateFilesList.
Definition generateEntryPoints := PackageJson.generateEntryPoints.

(** [generateScripts] *)
Definition generateScripts (config : ProjectConfig) : scripts_t :=
  let scripts : scripts_t := [] in
  let scripts :=
    if language_eqb (language config) typescript
    then put (put scripts "build" "tsup") "typecheck" "tsc --noEmit"
    else scripts in
  let scripts :=
    if testRunner_eqb (testRunner config) vitest
    then put (put (put scripts "test" "vitest run") "test:watch" "vitest")
           "test:coverage" "vitest run --coverage"
    else if testRunner_eqb (testRunner config) jest
    then put (put (put scripts "test" "jest") "test:watch" "jest --watch")
           "test:coverage" "jest --coverage"
    else scripts in
  let scripts :=
    if useLinting config then
      let ext := lint_ext config in
      let scripts := put scripts "lint" ("eslint . --ext ." ++ ext) in
      let scripts :=
        put scripts "lint:fix" ("eslint . --ext ." ++ ext ++ " --fix") in
      let scripts :=
        put scripts "format"
          ("prettier --write " ++ dq ++ "src/**/*.{ts,js,json,md}" ++ dq) in
      put scripts "format:check"
        ("prettier --check " ++ dq ++ "src/**/*.{ts,js,json,md}" ++ dq)
    else scripts in
  let scripts :=
    if language_eqb (language config) typescript
    then put scripts "check:exports" "attw --pack"
    else scripts in
  let scripts :=
    if language_eqb (language config) typescript
    then put scripts "prepublishOnly" "npm run build"
    else scripts in
  let scripts :=
    if truthyb (useDependabot config)
    then put (put scripts "sync" "git pull --rebase && npm install && npm test")
           "sync:quick" "git pull --rebase && npm install"
    else scripts in
  let scripts :=
    if truthyb (setupCD config)
    then put (put scripts "preversion" "npm run build && npm test")
           "release" "node scripts/release.mjs"
    else scripts in
  scripts.

(** One entry of the map returned by [fetchLatestVersions]. *)
Record VersionResult := {
  version : string;
  warning : option string
}.

Section Registry.

(** The two collaborators of [versionFetcher.ts] and [nodeFetcher.ts], which
    query the registry: the version map for a list of package names, and the
    [engines] range of the current Node.js LTS lines. *)
Variable fetchLatestVersions : list string -> string -> option VersionResult.
Variable nodeConfig_engines : string.

(** The package names [generateDevDependencies] asks the registry for. *)
Definition packagesToFetch (config : ProjectConfig) : list string :=
  let packagesToFetch : list string := [] in
  let packagesToFetch :=
    if language_eqb (language config) typescript
    then push packagesToFetch ["typescript"; "tsup"; "@types/node"; "@arethetypeswrong/cli"]
    else packagesToFetch in
  let packagesToFetch :=
    if testRunner_eqb (testRunner config) vitest then
      let packagesToFetch := push packagesToFetch ["vitest"] in
      if truthyb (setupCI config)
      then push packagesToFetch ["@vitest/coverage-v8"]
      else packagesToFetch
    else if testRunner_eqb (testRunner config) jest then
      let packagesToFetch := push packagesToFetch ["jest"] in
      if language_eqb (language config) typescript
      then push packagesToFetch ["ts-jest"; "@types/jest"]
      else packagesToFetch
    else packagesToFetch in
  let packagesToFetch :=
    if useLinting config then
      let packagesToFetch :=
        if language_eqb (language config) typescript
        then push packagesToFetch ["@typescript-eslint/eslint-plugin";
                   "@typescript-eslint/parser"]
        else packagesToFetch in
      push packagesToFetch ["eslint"; "prettier"; "eslint-config-prettier"]
    else packagesToFetch in
  let packagesToFetch :=
    if truthyb (setupCD config)
    then push packagesToFetch ["@clack/prompts"]
    else packagesToFetch in
  packagesToFetch.

(** [generateDevDependencies]: the pins and the warnings of the lookups. *)
Definition generateDevDependencies (config : ProjectConfig)
  : scripts_t * list string :=
  let versionMap := fetchLatestVersions (packagesToFetch config) in
  fold_left
    (fun acc pkg =>
       match versionMap pkg with
       | Some result =>
           (put (fst acc) pkg (version result),
            if truthy (warning result)
            then push (snd acc) [text (warning result)]
            else snd acc)
       | None => acc
       end)
    (packagesToFetch config) ([], []).

(** [generatePackageJson]: the manifest and the warnings. *)
Definition generatePackageJson (config : ProjectConfig)
  : props * list string :=
  let '(devDependencies, warnings) := generateDevDependencies config in
  let pkg := object_literal [
    Prop_ "name" (JString (packageName config));
    Prop_ "version" (JString "0.1.0");
    Prop_ "description"
      (JString (or_else (description config) "A new npm package"));
    Prop_ "type"
      (JString (if moduleType_eqb (moduleType config) commonjs
                then "commonjs" else "module"));
    Spread (generateEntryPoints config);
    Prop_ "files" (strings (generateFilesList config));
    Prop_ "scripts" (record (generateScripts config));
    Prop_ "keywords" (JArray []);
    Prop_ "author" (JString (authorField config));
    Prop_ "license" (JString "MIT");
    Prop_ "engines" (JObject [("node", JString nodeConfig_engines)]);
    Prop_ "devDependencies" (record devDependencies)
  ] in
  let pkg :=
    if truthy (githubUsername config) then
      let gh := text (githubUsername config) in
      let pkg := assign pkg "repository"
        (JObject [("type", JString "git");
                  ("url", JString ("https://github.com/" ++ gh ++ "/"
                                     ++ packageName config ++ ".git"))]) in
      let pkg := assign pkg "bugs"
        (JObject [("url", JString ("https://github.com/" ++ gh ++ "/"
                                     ++ packageName config ++ "/issues"))]) in
      assign pkg "homepage"
        (JString ("https://github.com/" ++ gh ++ "/"
                    ++ packageName config ++ "#readme"))
    else pkg in
  (pkg, warnings).

End Registry.

End PackageJsonAsync.

(** ** Text helpers for the template literals *)

Definition nl : string := String "010"%char EmptyString.

(** [a.join(sep)] *)
Fixpoint join (sep : string) (a : list string) : string :=
  match a with
  | [] => EmptyString
  | [x] => x
  | x :: a' => x ++ sep ++ join sep a'
  end.

(** The lines of a multi-line template literal, joined by line feeds. *)
Definition lines (l : list string) : string := join nl l.

(** [h.includes(n)] *)
Fixpoint includes (h n : string) : bool :=
  if String.prefix n h then true
  else match h with
       | EmptyString => false
       | String _ h' => includes h' n
       end.

(** ** [workflows.ts] *)

Module Workflows.

(** The [steps] array that [generateCIWorkflow] assembles. *)
Definition ciSteps (config : ProjectConfig) : list string :=
  let steps := [
    lines ["      - name: Checkout code";
           "        uses: actions/checkout@v4"];
    lines ["      - name: Setup Node.js ${{ matrix.node-version }}";
           "        uses: actions/setup-node@v4";
           "        with:";
           "          node-version: ${{ matrix.node-version }}"];
    lines ["      - name: Install dependencies";
           "        run: npm install"]
  ] in
  let steps :=
    if language_eqb (language config) typescript
    then push steps [lines ["      - name: Type check";
                            "        run: npm run typecheck"]]
    else steps in
  let steps :=
    if useLinting config
    then push steps [lines ["      - name: Lint";
                            "        run: npm run lint"]]
    else steps in
  let steps :=
    if negb (testRunner_eqb (testRunner config) none)
    then push steps [lines ["      - name: Run tests";
                            "        run: npm test"]]
    else steps in
  let steps :=
    push steps [lines ["      - name: Build";
                       "        run: npm run build"]] in
  let steps :=
    if negb (testRunner_eqb (testRunner config) none)
    then push steps [lines ["      - name: Upload coverage to Codecov";
                            "        if: matrix.node-version == '20'";
                            "        uses: codecov/codecov-action@v4";
                            "        with:";
                            "          token: ${{ secrets.CODECOV_TOKEN }}"]]
    else steps in
  steps.

(** [generateCIWorkflow] *)
Definition generateCIWorkflow (config : ProjectConfig) : string :=
  let nodeVersions := ["18"; "20"; "22"] in
  let steps := ciSteps config in
  lines ["name: CI";
         "";
         "on:";
         "  push:";
         "    branches: [main]";
         "  pull_request:";
         "    branches: [main]";
         "";
         "jobs:";
         "  test:";
         "    runs-on: ubuntu-latest";
         "    strategy:";
         "      matrix:";
         "        node-version: [" ++ join ", " nodeVersions ++ "]";
         "    steps:";
         join (nl ++ nl) steps;
         ""].

(** The [steps] array that [generateCDWorkflow] assembles. *)
Definition cdSteps (config : ProjectConfig) : list string :=
  let steps := [
    lines ["      - name: Checkout code";
           "        uses: actions/checkout@v4"];
    lines ["      - name: Setup Node.js";
           "        uses: actions/setup-node@v4";
           "        with:";
           "          node-version: 20";
           "          registry-url: 'https://registry.npmjs.org'"];
    lines ["      - name: Install dependencies";
           "        run: npm install"]
  ] in
  let steps :=
    if language_eqb (language config) typescript
    then push steps [lines ["      - name: Type check";
                            "        run: npm run typecheck"]]
    else steps in
  let steps :=
    if negb (testRunner_eqb (testRunner config) none)
    then push steps [lines ["      - name: Run tests";
                            "        run: npm test"]]
    else steps in
  let steps :=
    push steps [lines ["      - name: Build";
                       "        run: npm run build"]] in
  let steps :=
    push steps [lines ["      - name: Publish to npm";
                       "        run: npm publish";
                       "        env:";
                       "          NODE_AUTH_TOKEN: ${{ secrets.NPM_TOKEN }}"]] in
  steps.

(** [generateCDWorkflow] *)
Definition generateCDWorkflow (config : ProjectConfig) : string :=
  let steps := cdSteps config in
  lines ["name: Publish";
         "";
         "on:";
         "  release:";
         "    types: [created]";
         "";
         "jobs:";
         "  publish:";
         "    runs-on: ubuntu-latest";
         "    steps:";
         join (nl ++ nl) steps;
         ""].

End Workflows.

(** ** [files.ts]: the root re-export files *)

Module Files.



(** The [typeReference] constant of [generateRootIndexDts]: both arms of the
    conditional are the same literal. *)
Definition typeReference (config : ProjectConfig) : string :=
  if moduleType_eqb (moduleType config) dual
  then "./dist/index" else "./dist/index".

(** [generateRootIndexDts] *)
Definition generateRootIndexDts (config : ProjectConfig) : string :=
  let typeReference := typeReference config in
  lines ["/**";
         " * " ++ packageName config ++ " - Type Definitions";
         " *";
         " * @license MIT";
         " */";
         "";
         "export * from '" ++ typeReference ++ "';";
         "export { default } from '" ++ typeReference ++ "';";
         ""].

End Files.

(** ** [readme.ts] *)

Module Readme.

Definition party_popper : string :=
  String "240"%char (String "159"%char (String "142"%char
    (String "137"%char EmptyString))).

Definition copyright_sign : string :=
  String "194"%char (String "169"%char EmptyString).

Definition language_name (l : Language) : string :=
  match l with
  | typescript => "typescript"
  | javascript => "javascript"
  end.

(** The [badges] constant of [generateReadme]. *)
Definition badges (config : ProjectConfig) : string :=
  let packageName :=
    if truthy (Some (packageName config))
    then packageName config else "<package-name>" in
  let githubUsername := or_else (githubUsername config) "<github-username>" in
  lines [
    "";
    "[![npm version](https://badge.fury.io/js/" ++ packageName
      ++ ".svg)](https://badge.fury.io/js/" ++ packageName ++ ")";
    "![License](https://img.shields.io/npm/l/" ++ packageName ++ ")";
    "![Types](https://img.shields.io/npm/types/" ++ packageName ++ ")";
    "";
    "![NPM Downloads](https://img.shields.io/npm/dw/" ++ packageName ++ ")";
    "![Last Commit](https://img.shields.io/github/last-commit/oharu121/"
      ++ packageName ++ ")";
    (if truthyb (useCodecov config)
        && negb (testRunner_eqb (testRunner config) none)
     then "![Coverage](https://codecov.io/gh/" ++ githubUsername ++ "/"
            ++ packageName ++ "/branch/main/graph/badge.svg)" ++ nl
     else EmptyString)
    ++ (if truthyb (setupCI config)
        then "![CI Status](https://github.com/" ++ githubUsername ++ "/"
               ++ packageName ++ "/actions/workflows/ci.yml/badge.svg)"
        else EmptyString);
    "![GitHub Stars](https://img.shields.io/github/stars/" ++ githubUsername
      ++ "/" ++ packageName ++ "?style=social)";
    ""
  ].

(** [generateReadme] *)
Definition generateReadme (config : ProjectConfig) : string :=
  let badges := badges config in
  let description :=
    or_else (description config)
      "A new npm package created with forge-npm-pkg." in
  lines [
    "# " ++ packageName config;
    "";
    badges ++ description;
    "";
    "## Installation";
    "";
    "```bash";
    "npm install " ++ packageName config;
    "```";
    "";
    "## Usage";
    "";
    "```" ++ language_name (language config);
    "import { greet } from '" ++ packageName config ++ "';";
    "";
    "console.log(greet('World')); // Hello, World!";
    "```";
    "";
    "## Development";
    "";
    "### Build";
    "";
    "```bash";
    "npm run build";
    "```";
    "";
    (if negb (testRunner_eqb (testRunner config) none)
     then lines ["### Test"; ""; "```bash"; "npm test"; "```"; ""]
     else EmptyString);
    (if useLinting config
     then lines ["### Lint"; ""; "```bash"; "npm run lint"; "npm run format";
                 "```"; ""]
     else EmptyString);
    (if language_eqb (language config) typescript
     then lines ["### Validate Package Exports"; ""; "```bash";
                 "npm run check:exports"; "```"; ""]
     else EmptyString);
    (if truthyb (setupCD config)
     then lines [
       "## Release Workflow";
       "";
       "This package uses automated publishing via GitHub Actions.";
       "";
       "### Creating a Release";
       "";
       "1. **Make your changes** and commit them";
       "2. **Update the version:**";
       "   ```bash";
       "   npm version patch  # for bug fixes";
       "   npm version minor  # for new features";
       "   npm version major  # for breaking changes";
       "   ```";
       "3. **Push the changes and tags:**";
       "   ```bash";
       "   git push && git push --tags";
       "   ```";
       "4. **Package automatically publishes to npm** " ++ party_popper;
       "";
       "The GitHub Actions workflow will automatically:";
       "- Run all tests";
       "- Build the package";
       "- Publish to npm when a git tag is pushed";
       "";
       ""]
     else EmptyString);
    (if truthy (githubUsername config)
     then lines [
       "## Contributing";
       "";
       "Contributions are welcome! Please feel free to submit a Pull Request.";
       "";
       "## Issues";
       "";
       "If you encounter any issues, please report them [here](https://github.com/"
         ++ text (githubUsername config) ++ "/" ++ packageName config
         ++ "/issues).";
       "";
       ""]
     else EmptyString);
    "## License";
    "";
    "MIT" ++ (if truthy (author config)
              then " " ++ copyright_sign ++ " " ++ text (author config)
              else EmptyString);
    ""
  ].

End Readme.

(** ** Regular expressions

    The fragment of JavaScript regular expressions that [index.ts] uses:
    character classes, concatenation, an optional group and the star.  A
    pattern anchored by [^] and [$] (no [m] flag) tests whether the whole
    string belongs to the language of the pattern, decided here with
    derivatives.  A string is taken as its sequence of code units; the classes
    of the pattern only hold code units below 128. *)

Module Regex.

Inductive regex : Type :=
| Empty
| Eps
| Class (p : ascii -> bool)
| Seq (r1 r2 : regex)
| Alt (r1 r2 : regex)
| Star (r : regex).

(** [(r)?] *)
Definition Opt (r : regex) : regex := Alt r Eps.

Fixpoint nullable (r : regex) : bool :=
  match r with
  | Empty => false
  | Eps => true
  | Class _ => false
  | Seq r1 r2 => nullable r1 && nullable r2
  | Alt r1 r2 => nullable r1 || nullable r2
  | Star _ => true
  end.

Fixpoint deriv (c : ascii) (r : regex) : regex :=
  match r with
  | Empty => Empty
  | Eps => Empty
  | Class p => if p c then Eps else Empty
  | Seq r1 r2 =>
      if nullable r1
      then Alt (Seq (deriv c r1) r2) (deriv c r2)
      else Seq (deriv c r1) r2
  | Alt r1 r2 => Alt (deriv c r1) (deriv c r2)
  | Star r1 => Seq (deriv c r1) (Star r1)
  end.

(** [/^r$/.test(s)] *)
Fixpoint test (r : regex) (s : string) : bool :=
  match s with
  | EmptyString => nullable r
  | String c s' => test (deriv c r) s'
  end.

(** The language of a pattern. *)
Inductive Matches : regex -> string -> Prop :=
| MEps : Matches Eps EmptyString
| MClass p c : p c = true -> Matches (Class p) (String c EmptyString)
| MSeq r1 r2 s1 s2 :
    Matches r1 s1 -> Matches r2 s2 -> Matches (Seq r1 r2) (s1 ++ s2)
| MAltL r1 r2 s : Matches r1 s -> Matches (Alt r1 r2) s
| MAltR r1 r2 s : Matches r2 s -> Matches (Alt r1 r2) s
| MStarNil r : Matches (Star r) EmptyString
| MStarCons r s1 s2 :
    Matches r s1 -> Matches (Star r) s2 -> Matches (Star r) (s1 ++ s2).

(** Every character class of [r] is included in [P]. *)
Fixpoint classes_within (P : ascii -> bool) (r : regex) : Prop :=
  match r with
  | Empty | Eps => True
  | Class p => forall c, p c = true -> P c = true
  | Seq r1 r2 | Alt r1 r2 => classes_within P r1 /\ classes_within P r2
  | Star r1 => classes_within P r1
  end.

End Regex.

(** ** [index.ts]: the package-name validator *)

Module Index.

Import Regex.

Definition code (c : ascii) : nat := nat_of_ascii c.

(** [[lo-hi]] *)
Definition range (lo hi c : ascii) : bool :=
  Nat.leb (code lo) (code c) && Nat.leb (code c) (code hi).

Definition char_is (x c : ascii) : bool := Ascii.eqb x c.

(** [[a-z0-9-~]] *)
Definition class_first (c : ascii) : bool :=
  range "a"%char "z"%char c || range "0"%char "9"%char c
  || char_is "-"%char c || char_is "~"%char c.

(** [[a-z0-9-._~]] *)
Definition class_rest (c : ascii) : bool :=
  range "a"%char "z"%char c || range "0"%char "9"%char c
  || char_is "-"%char c || char_is "."%char c || char_is "_"%char c || char_is "~"%char c.

(** [/^(@[a-z0-9-~][a-z0-9-._~]*\/)?[a-z0-9-~][a-z0-9-._~]*$/] *)
Definition scopedPackagePattern : regex :=
  Seq (Opt (Seq (Class (char_is "@"%char))
             (Seq (Class class_first)
                (Seq (Star (Class class_rest)) (Class (char_is "/"%char))))))
      (Seq (Class class_first) (Star (Class class_rest))).

Definition NPM_NAME_MAX_LENGTH : nat := 214.

Definition reserved : list string := ["node_modules"; "favicon.ico"].

(** [a.includes(x)] on an array of strings. *)
Definition array_includes (a : list string) (x : string) : bool :=
  existsb (String.eqb x) a.

(** [validatePackageName]: [Some] message for a rejected name, [None]
    ([undefined]) for an accepted one. *)
Definition validatePackageName (name : string) : option string :=
  if negb (truthy (Some name)) then Some "Package name is required"
  else if Nat.ltb NPM_NAME_MAX_LENGTH (String.length name)
  then Some "Package name must be 214 characters or less"
  else if negb (test scopedPackagePattern name)
  then Some "Package name must be lowercase and can only contain letters, numbers, hyphens, underscores, and @/ for scoped packages"
  else if array_includes reserved name
  then Some (dq ++ name ++ dq ++ " is a reserved package name")
  else None.

(** *** The command: effects

    The action of the command is a program over the terminal, the file system
    and subprocesses.  A run is a function of the [World] (command line,
    environment, and what the user answers to each prompt); it yields a
    [trace] of the interactions in order, and either returns or leaves the
    process through [process.exit].  Console output is not part of the trace,
    and a written file is recorded by its path. *)

Inductive question :=
| QName | QCreate | QContinue
| QLanguage | QTestRunner | QLinting | QGit | QCI | QCD | QCodecov
| QDependabot
| QDescription | QUseGitConfig | QAuthor | QEmail | QGithub | QSave
| QPackageManager | QProceed | QInstall.

Inductive event :=
| Asked (q : question) (cancelled : bool)
| Exec (command : string)
| Mkdir (path : string)
| WriteFile (path : string)
| WriteUserConfig
| ResetUserConfig.

Definition trace := list event.

Inductive outcome (A : Type) :=
| Done (a : A)
| Exit (code : nat).

Arguments Done {A} a.
Arguments Exit {A} code.

Definition M (A : Type) : Type := trace -> outcome A * trace.

Definition ret {A} (a : A) : M A := fun t => (Done a, t).

Definition bind {A B} (m : M A) (k : A -> M B) : M B :=
  fun t =>
    match m t with
    | (Done a, t') => k a t'
    | (Exit code, t') => (Exit code, t')
    end.

(** [process.exit(code)] *)
Definition exit {A} (code : nat) : M A := fun t => (Exit code, t).

Definition emit (e : event) : M unit := fun t => (Done tt, (t ++ [e])%list).

Notation "x <- m ;; k" := (bind m (fun x => k))
  (at level 61, m at next level, right associativity).
Notation "m ;;; k" := (bind m (fun _ => k))
  (at level 61, right associativity).

Definition when (b : bool) (m : M unit) : M unit :=
  if b then m else ret tt.

Definition is_none {A} (o : option A) : bool :=
  match o with None => true | Some _ => false end.

(** A prompt of [@clack/prompts]: the answer, or [None] for the cancel
    symbol. *)
Definition ask {A} (q : question) (answer : option A) : M (option A) :=
  emit (Asked q (is_none answer)) ;;; ret answer.

(** [clack.text] with a [defaultValue]: an empty input yields the default. *)
Definition ask_text (q : question) (defaultValue : string)
  (answer : option string) : M (option string) :=
  ask q (option_map (fun s => or_else (Some s) defaultValue) answer).

(** [handleCancel] *)
Definition handleCancel {A} (value : option A) : M A :=
  match value with
  | None => exit 0
  | Some v => ret v
  end.

(** [x || undefined] on a string. *)
Definition or_undefined (s : option string) : option string :=
  if truthy s then s else None.

Record UserConfig := {
  uc_author : option string;
  uc_email : option string;
  uc_github : option string
}.

Record GitConfig := {
  gc_name : option string;
  gc_email : option string
}.

(** The options object that the action receives, by the properties that it
    may carry.  The force flags ([--typescript] to [--no-git]) are declared
    by the program and parsed, and the action reads none of them.  [noSave]
    is the property [options.noSave] that step 3 tests; the program declares
    the flag as [--no-save], which the parser stores under the name [save],
    so [noSave] stands for the property that is read and not for the flag. *)
Record Options := {
  yes : bool;
  dryRun : bool;
  skipInstall : bool;
  noSave : bool;
  resetConfig : bool;
  config_flag : bool;
  typescript_flag : bool;
  javascript_flag : bool;
  vitest_flag : bool;
  jest_flag : bool;
  tests_flag : bool;
  lint_flag : bool;
  git_flag : bool
}.

Record World := {
  arg_packageName : option string;
  options : Options;
  cwd : string;
  (** [existsSync] *)
  existsSync : string -> bool;
  (** whether [execSync] of a command returns normally *)
  exec_ok : string -> bool;
  (** whether [mkdir] or [writeFile] on a path succeeds *)
  fs_ok : string -> bool;
  (** [readUserConfig()] *)
  storedConfig : option UserConfig;
  (** what [readGitConfig] builds from the output of its two commands when
      both return: [None] when both outputs are empty *)
  gitConfig : option GitConfig;
  (** [detectPackageManager()] *)
  detectedPackageManager : PackageManager;
  (** the answers of the user, [None] when the prompt is cancelled *)
  answer_name : option string;
  answer_create : option bool;
  answer_continue : option bool;
  answer_language : option Language;
  answer_testRunner : option TestRunner;
  answer_linting : option bool;
  answer_git : option bool;
  answer_ci : option bool;
  answer_cd : option bool;
  answer_codecov : option bool;
  answer_dependabot : option bool;
  answer_description : option string;
  answer_useGitConfig : option bool;
  answer_author : option string;
  answer_email : option string;
  answer_github : option string;
  answer_save : option bool;
  answer_packageManager : option PackageManager;
  answer_proceed : option bool;
  answer_install : option bool
}.

(** [path.join(a, b)] for a non-empty relative [b], without the lexical
    normalisation of [path.join]: for a [b] with [.] or [..] segments the
    path of the program is the normal form of this one, the same
    directory. *)
Definition path_join (a b : string) : string := a ++ "/" ++ b.

(** [execSync] inside a [try]: runs the command, reports whether it
    returned. *)
Definition try_exec (w : World) (command : string) : M bool :=
  emit (Exec command) ;;; ret (exec_ok w command).

(** [checkPackageAvailability] *)
Definition checkPackageAvailability (w : World) (packageName : string)
  : M bool :=
  ok <- try_exec w ("npm view " ++ packageName) ;;
  ret (negb ok).

(** *** The command: the action *)

(** Step 1 of the action: the package name, confirmed by the user, and the
    advisory look-up of the name on the registry.  [clack.text] re-asks until
    [validatePackageName] accepts the input, so [answer_name] stands for the
    input that is finally submitted. *)
Definition step1_packageName (w : World) : M string :=
  let packageName := arg_packageName w in
  let useDefaults := yes (options w) in
  finalPackageName <-
    (if negb (truthy packageName) then
       v <- ask QName (answer_name w) ;;
       nameInput <- handleCancel v ;;
       ret nameInput
     else if negb useDefaults then
       v <- ask QCreate (answer_create w) ;;
       confirmed <- handleCancel v ;;
       if negb confirmed then exit 0 else ret (text packageName)
     else ret (text packageName)) ;;
  isAvailable <- checkPackageAvailability w finalPackageName ;;
  (if negb isAvailable then
     if negb useDefaults then
       v <- ask QContinue (answer_continue w) ;;
       continueAnyway <- handleCancel v ;;
       if negb continueAnyway then exit 0 else ret tt
     else ret tt
   else ret tt) ;;;
  ret finalPackageName.

(** The variables that step 2 of the action assigns. *)
Record Choices := {
  c_language : Language;
  c_moduleType : ModuleType;
  c_testRunner : TestRunner;
  c_useLinting : bool;
  c_initGit : bool;
  c_setupCI : bool;
  c_setupCD : bool;
  c_useCodecov : bool;
  c_useDependabot : bool
}.

(** Step 2 of the action: the defaults of [--yes], or the questions. *)
Definition step2_configuration (w : World) : M Choices :=
  let useDefaults := yes (options w) in
  if useDefaults then
    ret {| c_language := typescript; c_moduleType := dual;
           c_testRunner := vitest; c_useLinting := true; c_initGit := false;
           c_setupCI := true; c_setupCD := false; c_useCodecov := false;
           c_useDependabot := false |}
  else
    v <- ask QLanguage (answer_language w) ;;
    language <- handleCancel v ;;
    let moduleType := dual in
    v <- ask QTestRunner (answer_testRunner w) ;;
    testRunner <- handleCancel v ;;
    v <- ask QLinting (answer_linting w) ;;
    useLinting <- handleCancel v ;;
    v <- ask QGit (answer_git w) ;;
    initGit <- handleCancel v ;;
    v <- ask QCI (answer_ci w) ;;
    setupCI <- handleCancel v ;;
    if (setupCI : bool) then
      v <- ask QCD (answer_cd w) ;;
      setupCD <- handleCancel v ;;
      useCodecov <-
        (if negb (testRunner_eqb testRunner none) then
           v <- ask QCodecov (answer_codecov w) ;;
           handleCancel v
         else ret false) ;;
      v <- ask QDependabot (answer_dependabot w) ;;
      useDependabot <- handleCancel v ;;
      ret {| c_language := language; c_moduleType := moduleType;
             c_testRunner := testRunner; c_useLinting := useLinting;
             c_initGit := initGit; c_setupCI := setupCI;
             c_setupCD := setupCD; c_useCodecov := useCodecov;
             c_useDependabot := useDependabot |}
    else
      ret {| c_language := language; c_moduleType := moduleType;
             c_testRunner := testRunner; c_useLinting := useLinting;
             c_initGit := initGit; c_setupCI := setupCI;
             c_setupCD := false; c_useCodecov := false;
             c_useDependabot := false |}.

(** The variables that step 3 of the action assigns. *)
Record Metadata := {
  m_description : option string;
  m_author : option string;
  m_authorEmail : option string;
  m_githubUsername : option string;
  m_shouldSaveConfig : bool
}.

(** A free-text question whose answer is kept only when it is not empty. *)
Definition ask_optional (q : question) (defaultValue : string)
  (answer : option string) : M (option string) :=
  v <- ask_text q defaultValue answer ;;
  s <- handleCancel v ;;
  ret (or_undefined (Some s)).

(** The three author questions, pre-filled from the git identity when there
    is one. *)
Definition ask_author_fields (w : World) (name email : string)
  : M (option string * option string * option string) :=
  author <- ask_optional QAuthor name (answer_author w) ;;
  authorEmail <- ask_optional QEmail email (answer_email w) ;;
  githubUsername <- ask_optional QGithub EmptyString (answer_github w) ;;
  ret (author, authorEmail, githubUsername).

(** [readGitConfig] of [gitConfig.ts]: the two [git config] commands inside
    one [try]; when the first one throws the second one does not run. *)
Definition readGitConfig (w : World) : M (option GitConfig) :=
  ok <- try_exec w "git config --global user.name" ;;
  if (ok : bool) then
    ok <- try_exec w "git config --global user.email" ;;
    if (ok : bool) then ret (gitConfig w) else ret None
  else ret None.

(** Step 3 of the action: description and author metadata. *)
Definition step3_metadata (w : World) : M Metadata :=
  let useDefaults := yes (options w) in
  if negb useDefaults then
    description <-
      ask_optional QDescription EmptyString (answer_description w) ;;
    match storedConfig w with
    | Some storedConfig =>
        ret {| m_description := description;
               m_author := uc_author storedConfig;
               m_authorEmail := uc_email storedConfig;
               m_githubUsername := uc_github storedConfig;
               m_shouldSaveConfig := false |}
    | None =>
        gitConfig <- readGitConfig w ;;
        fields <-
          match gitConfig with
          | Some gitConfig =>
              if truthy (gc_name gitConfig) || truthy (gc_email gitConfig)
              then
                v <- ask QUseGitConfig (answer_useGitConfig w) ;;
                useGitConfig <- handleCancel v ;;
                if (useGitConfig : bool) then
                  githubUsername <-
                    ask_optional QGithub EmptyString (answer_github w) ;;
                  ret (gc_name gitConfig, gc_email gitConfig, githubUsername)
                else
                  ask_author_fields w
                    (or_else (gc_name gitConfig) EmptyString)
                    (or_else (gc_email gitConfig) EmptyString)
              else ask_author_fields w EmptyString EmptyString
          | None => ask_author_fields w EmptyString EmptyString
          end ;;
        let '(author, authorEmail, githubUsername) := fields in
        shouldSaveConfig <-
          (if negb (noSave (options w))
              && (truthy author || truthy authorEmail
                  || truthy githubUsername)
           then
             v <- ask QSave (answer_save w) ;;
             handleCancel v
           else ret false) ;;
        ret {| m_description := description;
               m_author := author;
               m_authorEmail := authorEmail;
               m_githubUsername := githubUsername;
               m_shouldSaveConfig := shouldSaveConfig |}
    end
  else
    ret {| m_description := None; m_author := None; m_authorEmail := None;
           m_githubUsername := None; m_shouldSaveConfig := false |}.

(** Step 4 of the action: the package manager. *)
Definition step4_packageManager (w : World) : M PackageManager :=
  if yes (options w) then ret (detectedPackageManager w)
  else
    v <- ask QPackageManager (answer_packageManager w) ;;
    handleCancel v.

(** Steps 2 to 4 and the [ProjectConfig] literal that the action builds from
    them: the resolved configuration, and whether to save the author data. *)
Definition resolveConfig (w : World) (finalPackageName : string)
  : M (ProjectConfig * bool) :=
  c <- step2_configuration w ;;
  m <- step3_metadata w ;;
  packageManager <- step4_packageManager w ;;
  ret ({| packageName := finalPackageName;
          language := c_language c;
          moduleType := c_moduleType c;
          testRunner := c_testRunner c;
          useLinting := c_useLinting c;
          initGit := c_initGit c;
          setupCI := Some (c_setupCI c);
          setupCD := Some (c_setupCD c);
          useCodecov := Some (c_useCodecov c);
          useDependabot := Some (c_useDependabot c);
          packageManager := Some packageManager;
          description := or_undefined (m_description m);
          author := or_undefined (m_author m);
          authorEmail := or_undefined (m_authorEmail m);
          githubUsername := or_undefined (m_githubUsername m) |},
       m_shouldSaveConfig m).

(** [mkdir] and [writeFile] reject when the file system refuses the path; the
    rejection is not caught before the [catch] of the action, which leaves
    with [process.exit(1)]. *)
Definition mkdir (w : World) (path : string) : M unit :=
  emit (Mkdir path) ;;; if fs_ok w path then ret tt else exit 1.

Definition writeFile (w : World) (path : string) : M unit :=
  emit (WriteFile path) ;;; if fs_ok w path then ret tt else exit 1.

Definition source_ext (config : ProjectConfig) : string :=
  if language_eqb (language config) typescript then "ts" else "js".

(** [createProject] *)
Definition createProject (w : World) (config : ProjectConfig)
  (targetDir : string) : M unit :=
  mkdir w targetDir ;;;
  let srcDir := path_join targetDir "src" in
  mkdir w srcDir ;;;
  let mainFile :=
    if language_eqb (language config) typescript
    then "index.ts" else "index.js" in
  writeFile w (path_join srcDir mainFile) ;;;
  when (negb (testRunner_eqb (testRunner config) none))
    (let testFile := "index.test." ++ source_ext config in
     writeFile w (path_join srcDir testFile)) ;;;
  writeFile w (path_join targetDir "package.json") ;;;
  writeFile w (path_join targetDir "README.md") ;;;
  writeFile w (path_join targetDir ".gitignore") ;;;
  when (language_eqb (language config) typescript)
    (writeFile w (path_join targetDir ".npmignore")) ;;;
  when (language_eqb (language config) typescript)
    (writeFile w (path_join targetDir "tsconfig.json") ;;;
     writeFile w (path_join targetDir "tsup.config.ts") ;;;
     writeFile w (path_join targetDir "index.js") ;;;
     writeFile w (path_join targetDir "index.d.ts") ;;;
     when (moduleType_eqb (moduleType config) dual)
       (writeFile w (path_join targetDir "index.mjs"))) ;;;
  when (useLinting config)
    (writeFile w (path_join targetDir ".eslintrc.json") ;;;
     writeFile w (path_join targetDir ".prettierrc") ;;;
     writeFile w (path_join targetDir ".editorconfig")) ;;;
  (if testRunner_eqb (testRunner config) vitest then
     writeFile w (path_join targetDir "vitest.config.ts")
   else if testRunner_eqb (testRunner config) jest then
     writeFile w (path_join targetDir ("jest.config." ++ source_ext config))
   else ret tt) ;;;
  when (truthyb (setupCD config) || truthyb (setupCI config)
        || truthyb (useDependabot config))
    (let githubDir := path_join targetDir ".github" in
     let workflowDir := path_join githubDir "workflows" in
     mkdir w workflowDir ;;;
     when (truthyb (setupCD config))
       (writeFile w (path_join workflowDir "publish.yml")) ;;;
     when (truthyb (setupCI config))
       (writeFile w (path_join workflowDir "ci.yml")) ;;;
     when (truthyb (useDependabot config))
       (writeFile w (path_join githubDir "dependabot.yml"))).

Definition packageManager_name (p : option PackageManager) : string :=
  match p with
  | Some npm => "npm"
  | Some pnpm => "pnpm"
  | Some yarn => "yarn"
  | Some bun => "bun"
  | None => "undefined"
  end.

Definition INITIAL_COMMIT_MESSAGE : string := "chore: initial commit".

(** Steps 7 to 9 of the action: installation, git, build verification. *)
Definition install_and_verify (w : World) (config : ProjectConfig) : M unit :=
  let useDefaults := yes (options w) in
  let skipInstall := skipInstall (options w) in
  shouldInstall <-
    (if negb skipInstall && negb useDefaults then
       v <- ask QInstall (answer_install w) ;;
       handleCancel v
     else ret (negb skipInstall)) ;;
  when shouldInstall
    (let installCmd :=
       match packageManager config with
       | Some yarn => "yarn"
       | pm => packageManager_name pm ++ " install"
       end in
     _ <- try_exec w installCmd ;;
     ret tt) ;;;
  when shouldInstall
    (when (initGit config)
       (ok <- try_exec w "git init" ;;
        if (ok : bool) then
          ok <- try_exec w "git add ." ;;
          if (ok : bool) then
            _ <- try_exec w ("git commit -m " ++ dq ++ INITIAL_COMMIT_MESSAGE
                               ++ dq) ;;
            ret tt
          else ret tt
        else ret tt) ;;;
     when (language_eqb (language config) typescript)
       (_ <- try_exec w (packageManager_name (packageManager config)
                           ++ " run build") ;;
        ret tt)).

(** Steps 1 to 5 of the action: the package name, the check of the target
    directory, the configuration and its confirmation. *)
Definition plan (w : World) : M (ProjectConfig * bool * string) :=
  let useDefaults := yes (options w) in
  finalPackageName <- step1_packageName w ;;
  let targetDir := path_join (cwd w) finalPackageName in
  if existsSync w targetDir then exit 1
  else
    resolved <- resolveConfig w finalPackageName ;;
    let '(config, shouldSaveConfig) := resolved in
    (if negb useDefaults then
       v <- ask QProceed (answer_proceed w) ;;
       proceed <- handleCancel v ;;
       if negb proceed then exit 0 else ret tt
     else ret tt) ;;;
    ret (config, shouldSaveConfig, targetDir).

(** Steps 6 to 9 of the action, and the saving of the author data. *)
Definition materialize (w : World) (config : ProjectConfig)
  (shouldSaveConfig : bool) (targetDir : string) : M unit :=
  createProject w config targetDir ;;;
  install_and_verify w config ;;;
  when shouldSaveConfig (emit WriteUserConfig).

(** The action of the command. *)
Definition action (w : World) : M unit :=
  if config_flag (options w) then exit 0
  else if resetConfig (options w) then emit ResetUserConfig ;;; exit 0
  else
    let isDryRun := dryRun (options w) in
    planned <- plan w ;;
    let '(config, shouldSaveConfig, targetDir) := planned in
    if isDryRun then ret tt
    else materialize w config shouldSaveConfig targetDir.

(** A run of the command from the empty trace. *)
Definition run (w : World) : outcome unit * trace := action w [].

(** The writes of the project: the [mkdir] and [writeFile] calls of
    [createProject].  Saving and resetting the user configuration, which
    touch the configuration directory of the user, are events of their
    own. *)
Definition is_write (e : event) : bool :=
  match e with
  | Mkdir _ | WriteFile _ => true
  | _ => false
  end.

(** The project writes of a trace. *)
Definition writes (t : trace) : list event := filter is_write t.

End Index.

(** ** Statements of the specification *)

(** The table of section 4.2, rule 2 of the specification, read on a manifest
    [pkg] generated for [config]. *)
Definition entry_point_table (config : ProjectConfig) (pkg : props) : Prop :=
  match language config, moduleType config with
  | javascript, commonjs =>
      get pkg "main" = Some (JString "./src/index.js")
      /\ get pkg "module" = None
      /\ get pkg "types" = None
      /\ get pkg "exports" = Some (JObject [(".", JString "./src/index.js")])
  | javascript, _ =>
      get pkg "main" = Some (JString "./src/index.js")
      /\ get pkg "module" = Some (JString "./src/index.js")
      /\ get pkg "types" = None
      /\ get pkg "exports" = Some (JObject [(".", JString "./src/index.js")])
  | typescript, esm =>
      get pkg "main" = Some (JString "./index.js")
      /\ get pkg "module" = None
      /\ get pkg "types" = Some (JString "./index.d.ts")
      /\ get pkg "exports"
         = Some (JObject [(".", JObject [("types", JString "./index.d.ts");
                                         ("import", JString "./index.js")])])
  | typescript, commonjs =>
      get pkg "main" = Some (JString "./index.js")
      /\ get pkg "module" = None
      /\ get pkg "types" = Some (JString "./index.d.ts")
      /\ get pkg "exports"
         = Some (JObject [(".", JObject [("types", JString "./index.d.ts");
                                         ("require", JString "./index.js")])])
  | typescript, dual =>
      get pkg "main" = Some (JString "./index.js")
      /\ get pkg "module" = Some (JString "./index.mjs")
      /\ get pkg "types" = Some (JString "./index.d.ts")
      /\ get pkg "exports"
         = Some (JObject [(".", JObject [("types", JString "./index.d.ts");
                                         ("import", JString "./index.mjs");
                                         ("require", JString "./index.js")])])
  end.

(** The [type] field the specification requires for a module format. *)
Definition type_field (m : ModuleType) : string :=
  match m with
  | commonjs => "commonjs"
  | esm | dual => "module"
  end.

(** The allow-list of section 4.2, rule 3 of the specification. *)
Definition files_allow_list (l : Language) (m : ModuleType) : list string :=
  match l, m with
  | javascript, _ => ["src"]
  | typescript, dual => ["dist"; "index.js"; "index.d.ts"; "index.mjs"]
  | typescript, _ => ["dist"; "index.js"; "index.d.ts"]
  end.

(** The author string of section 4.2, rule 7: the name, then each of the two
    other segments when it is present. *)
Definition author_string (config : ProjectConfig) : string :=
  text (author config)
  ++ (if truthy (authorEmail config)
      then " <" ++ text (authorEmail config) ++ ">" else EmptyString)
  ++ (if truthy (githubUsername config)
      then " (https://github.com/" ++ text (githubUsername config) ++ ")"
      else EmptyString).

(** A configuration without any optional metadata. *)
Definition bare_config : ProjectConfig :=
  {| packageName := "sample-lib"; language := typescript; moduleType := dual;
     testRunner := vitest; useLinting := true; initGit := false;
     setupCI := Some true; setupCD := Some false; useCodecov := Some false;
     useDependabot := Some false; packageManager := Some npm;
     description := None; author := None; authorEmail := None;
     githubUsername := None |}.

(** A project with tests and without continuous integration. *)
Definition tests_without_ci : ProjectConfig :=
  {| packageName := "sample-lib"; language := typescript; moduleType := dual;
     testRunner := vitest; useLinting := true; initGit := false;
     setupCI := Some false; setupCD := Some false; useCodecov := Some false;
     useDependabot := Some false; packageManager := Some npm;
     description := None; author := None; authorEmail := None;
     githubUsername := None |}.

(** A project with tests and continuous integration that did not opt in to
    the upload of coverage. *)
Definition ci_without_codecov : ProjectConfig :=
  {| packageName := "test-package"; language := typescript;
     moduleType := esm; testRunner := vitest; useLinting := true;
     initGit := false; setupCI := Some true; setupCD := Some false;
     useCodecov := Some false; useDependabot := None;
     packageManager := None; description := None; author := None;
     authorEmail := None; githubUsername := None |}.

(** What a manifest [pkg] carries for the optional metadata of [config]: the
    description or its default text, the author string or the empty string,
    and the three repository entries together or not at all. *)
Definition metadata_entries (config : ProjectConfig) (pkg : props) : Prop :=
  get pkg "description"
  = Some (JString (if truthy (description config)
                   then text (description config)
                   else "A new npm package"))
  /\ get pkg "author"
     = Some (JString (if truthy (author config)
                      then author_string config
                      else EmptyString))
  /\ (if truthy (githubUsername config)
      then get pkg "repository"
           = Some (JObject
                     [("type", JString "git");
                      ("url", JString ("https://github.com/"
                                         ++ text (githubUsername config)
                                         ++ "/" ++ packageName config
                                         ++ ".git"))])
           /\ get pkg "bugs"
              = Some (JObject
                        [("url", JString ("https://github.com/"
                                            ++ text (githubUsername config)
                                            ++ "/" ++ packageName config
                                            ++ "/issues"))])
           /\ get pkg "homepage"
              = Some (JString ("https://github.com/"
                                 ++ text (githubUsername config)
                                 ++ "/" ++ packageName config ++ "#readme"))
      else get pkg "repository" = None
           /\ get pkg "bugs" = None
           /\ get pkg "homepage" = None).

(** [n] occurs in [h]. *)
Definition Substring (n h : string) : Prop :=
  exists pre suf, h = pre ++ n ++ suf.

(** The test scripts that follow the command line of a runner. *)
Definition test_script (r : TestRunner) : option string :=
  match r with
  | vitest => Some "vitest run"
  | jest => Some "jest"
  | none => None
  end.

Definition watch_script (r : TestRunner) : option string :=
  match r with
  | vitest => Some "vitest"
  | jest => Some "jest --watch"
  | none => None
  end.

Definition coverage_script (r : TestRunner) : option string :=
  match r with
  | vitest => Some "vitest run --coverage"
  | jest => Some "jest --coverage"
  | none => None
  end.

(** The name that the badges of the README show for the package. *)
Definition badge_package (config : ProjectConfig) : string :=
  match packageName config with
  | EmptyString => "<package-name>"
  | name => name
  end.

(** The GitHub account that the badges of the README show. *)
Definition badge_account (config : ProjectConfig) : string :=
  if truthy (githubUsername config)
  then text (githubUsername config)
  else "<github-username>".

(** The text of the root declaration file for a package name. *)
Definition root_index_dts (name : string) : string :=
  lines ["/**";
         " * " ++ name ++ " - Type Definitions";
         " *";
         " * @license MIT";
         " */";
         "";
         "export * from './dist/index';";
         "export { default } from './dist/index';";
         ""].

Definition esm_config : ProjectConfig :=
  {| packageName := "sample-lib"; language := typescript; moduleType := esm;
     testRunner := vitest; useLinting := true; initGit := false;
     setupCI := Some true; setupCD := Some false; useCodecov := Some false;
     useDependabot := Some false; packageManager := Some npm;
     description := None; author := None; authorEmail := None;
     githubUsername := None |}.

(** [c] is one of the code units of [s]. *)
Definition occurs (c : ascii) (s : string) : Prop :=
  In c (list_ascii_of_string s).

(** Every code unit of [s] satisfies [p]. *)
Fixpoint all_chars (p : ascii -> bool) (s : string) : bool :=
  match s with
  | EmptyString => true
  | String c s' => p c && all_chars p s'
  end.

(** [[A-Z]] *)
Definition is_upper (c : ascii) : bool := Index.range "A"%char "Z"%char c.

(** The characters that the pattern of the validator can read at all: those
    of its widest class, and the two delimiters of a scope. *)
Definition allowed_char (c : ascii) : bool :=
  Index.class_rest c || Index.char_is "@"%char c || Index.char_is "/"%char c.

(** Lowercase alphanumerics, hyphen, underscore and dot. *)
Definition plain_char (c : ascii) : bool :=
  Index.range "a"%char "z"%char c || Index.range "0"%char "9"%char c
  || Index.char_is "-"%char c || Index.char_is "_"%char c
  || Index.char_is "."%char c.

(** A name segment as the pattern reads it: a first character of
    [[a-z0-9-~]], then characters of [[a-z0-9-._~]]. *)
Definition segment (s : string) : bool :=
  match s with
  | EmptyString => false
  | String c s' => Index.class_first c && all_chars Index.class_rest s'
  end.

(** [c.repeat(n)] *)
Fixpoint repeat_char (c : ascii) (n : nat) : string :=
  match n with
  | O => EmptyString
  | S n' => String c (repeat_char c n')
  end.

(** No prompt of the trace was cancelled. *)
Definition no_cancel (t : Index.trace) : Prop :=
  forall q, ~ In (Index.Asked q true) t.

(** A computation keeps a property of the trace. *)
Definition preserves {A} (P : Index.trace -> Prop) (m : Index.M A) : Prop :=
  forall t0, P t0 -> P (snd (m t0)).

(** A computation that starts without a cancelled prompt either returns
    without one, or leaves the process; when it leaves after a cancelled
    prompt the exit code is 0. *)
Definition cancel_safe {A} (m : Index.M A) : Prop :=
  forall t0, no_cancel t0 ->
    match m t0 with
    | (Index.Done _, t) => no_cancel t
    | (Index.Exit code, t) => no_cancel t \/ code = 0
    end.

Definition all_ok (_ : string) : bool := true.
Definition nothing_exists (_ : string) : bool := false.

Definition interactive_options : Index.Options :=
  {| Index.yes := false; Index.dryRun := false; Index.skipInstall := false;
     Index.noSave := false; Index.resetConfig := false;
     Index.config_flag := false; Index.typescript_flag := false;
     Index.javascript_flag := false; Index.vitest_flag := false;
     Index.jest_flag := false; Index.tests_flag := true;
     Index.lint_flag := true; Index.git_flag := true |}.

(** An interactive session in which every question is answered, coverage
    upload included, except the last one: [install] is the answer to the
    question about installing the dependencies. *)
Definition session (install : option bool) : Index.World :=
  {| Index.arg_packageName := Some "sample-lib";
     Index.options := interactive_options;
     Index.cwd := "/home/dev";
     Index.existsSync := nothing_exists;
     Index.exec_ok := all_ok;
     Index.fs_ok := all_ok;
     Index.storedConfig := None;
     Index.gitConfig := None;
     Index.detectedPackageManager := npm;
     Index.answer_name := None;
     Index.answer_create := Some true;
     Index.answer_continue := Some true;
     Index.answer_language := Some typescript;
     Index.answer_testRunner := Some vitest;
     Index.answer_linting := Some true;
     Index.answer_git := Some false;
     Index.answer_ci := Some true;
     Index.answer_cd := Some false;
     Index.answer_codecov := Some true;
     Index.answer_dependabot := Some false;
     Index.answer_description := Some EmptyString;
     Index.answer_useGitConfig := None;
     Index.answer_author := Some "Jane Doe";
     Index.answer_email := Some EmptyString;
     Index.answer_github := Some EmptyString;
     Index.answer_save := Some false;
     Index.answer_packageManager := Some npm;
     Index.answer_proceed := Some true;
     Index.answer_install := install |}.

(** The same session in a directory where the target already exists. *)
Definition session_in_used_directory : Index.World :=
  {| Index.arg_packageName := Some "sample-lib";
     Index.options := interactive_options;
     Index.cwd := "/home/dev";
     Index.existsSync := String.eqb "/home/dev/sample-lib";
     Index.exec_ok := all_ok;
     Index.fs_ok := all_ok;
     Index.storedConfig := None;
     Index.gitConfig := None;
     Index.detectedPackageManager := npm;
     Index.answer_name := None;
     Index.answer_create := Some true;
     Index.answer_continue := Some true;
     Index.answer_language := Some typescript;
     Index.answer_testRunner := Some vitest;
     Index.answer_linting := Some true;
     Index.answer_git := Some false;
     Index.answer_ci := Some true;
     Index.answer_cd := Some false;
     Index.answer_codecov := Some true;
     Index.answer_dependabot := Some false;
     Index.answer_description := Some EmptyString;
     Index.answer_useGitConfig := None;
     Index.answer_author := Some "Jane Doe";
     Index.answer_email := Some EmptyString;
     Index.answer_github := Some EmptyString;
     Index.answer_save := Some false;
     Index.answer_packageManager := Some npm;
     Index.answer_proceed := Some true;
     Index.answer_install := Some true |}.

(** The configuration that [session] resolves to. *)
Definition session_config : ProjectConfig :=
  {| packageName := "sample-lib"; language := typescript;
     moduleType := dual; testRunner := vitest; useLinting := true;
     initGit := false; setupCI := Some true; setupCD := Some false;
     useCodecov := Some true; useDependabot := Some false;
     packageManager := Some npm; description := None;
     author := Some "Jane Doe"; authorEmail := None;
     githubUsername := None |}.

(** The trace has no write to the file system. *)
Definition no_writes (t : Index.trace) : Prop := Index.writes t = [].

(** The prompt [q] was not cancelled in the trace. *)
Definition not_cancelled (q : Index.question) (t : Index.trace) : Prop :=
  ~ In (Index.Asked q true) t.

(** The message of the validator for a name outside the pattern. *)
Definition must_be_lowercase : option string :=
  Some "Package name must be lowercase and can only contain letters, numbers, hyphens, underscores, and @/ for scoped packages".

(** The base configuration of the unit tests of the workflows. *)
Definition workflow_test_config (l : Language) (r : TestRunner)
  (linting : bool) : ProjectConfig :=
  {| packageName := "test-package"; language := l; moduleType := esm;
     testRunner := r; useLinting := linting; initGit := false;
     setupCI := Some true; setupCD := Some false; useCodecov := None;
     useDependabot := None; packageManager := None; description := None;
     author := None; authorEmail := None; githubUsername := None |}.

(** ** [typescript.ts] *)

Module Typescript.

Record CompilerOptions := {
  target : string;
  module : string;
  lib : list string;
  moduleResolution : string;
  outDir : string;
  rootDir : string;
  strict : bool;
  esModuleInterop : bool;
  skipLibCheck : bool;
  forceConsistentCasingInFileNames : bool;
  declaration : bool;
  declarationMap : bool;
  sourceMap : bool;
  noUnusedLocals : bool;
  noUnusedParameters : bool;
  noImplicitReturns : bool;
  noFallthroughCasesInSwitch : bool;
  resolveJsonModule : bool;
  allowSyntheticDefaultImports : bool
}.

Record TSConfig := {
  compilerOptions : CompilerOptions;
  include : list string;
  exclude : list string
}.

(** [generateTsConfig] *)
Definition generateTsConfig (config : ProjectConfig) : TSConfig :=
  let moduleResolution :=
    if moduleType_eqb (moduleType config) commonjs
    then "node" else "bundler" in
  let module :=
    if moduleType_eqb (moduleType config) commonjs
    then "CommonJS" else "ESNext" in
  {| compilerOptions :=
       {| target := "ES2020";
          module := module;
          lib := ["ES2020"];
          moduleResolution := moduleResolution;
          outDir := "./dist";
          rootDir := "./src";
          strict := true;
          esModuleInterop := true;
          skipLibCheck := true;
          forceConsistentCasingInFileNames := true;
          declaration := true;
          declarationMap := true;
          sourceMap := true;
          noUnusedLocals := true;
          noUnusedParameters := true;
          noImplicitReturns := true;
          noFallthroughCasesInSwitch := true;
          resolveJsonModule := true;
          allowSyntheticDefaultImports := true |};
     include := ["src/**/*"];
     exclude := ["node_modules"; "dist"; "**/*.test.ts"; "**/*.spec.ts";
                 "index.js"; "index.d.ts"; "index.mjs"] |}.

(** The [formats] array of [generateTsupConfig]. *)
Definition tsupFormats (config : ProjectConfig) : list string :=
  let formats : list string := [] in
  if moduleType_eqb (moduleType config) esm then push formats ["'esm'"]
  else if moduleType_eqb (moduleType config) commonjs
  then push formats ["'cjs'"]
  else push formats ["'cjs'"; "'esm'"].

(** [generateTsupConfig] *)
Definition generateTsupConfig (config : ProjectConfig) : string :=
  let formats := tsupFormats config in
  lines ["import { defineConfig } from 'tsup';";
         "";
         "export default defineConfig({";
         "  entry: ['src/index.ts'],";
         "  format: [" ++ join ", " formats ++ "],";
         "  dts: true, // Generate declaration files";
         "  splitting: false,";
         "  sourcemap: true,";
         "  clean: true,";
         "  treeshake: true,";
         "});";
         ""].

End Typescript.

(** ** [linting.ts] *)

Module Linting.

Record Env := {
  node : bool;
  es2021 : bool
}.

Record ParserOptions := {
  ecmaVersion : string;
  sourceType : string
}.

Record ESLintConfig := {
  env : Env;
  extends : list string;
  parserOptions : ParserOptions;
  rules : list (string * string);
  parser : option string;
  plugins : option (list string)
}.

(** [generateEslintConfig] *)
Definition generateEslintConfig (config : ProjectConfig) : ESLintConfig :=
  let eslintConfig :=
    {| env := {| node := true; es2021 := true |};
       extends := ["eslint:recommended"];
       parserOptions :=
         {| ecmaVersion := "latest"; sourceType := "module" |};
       rules := [];
       parser := None;
       plugins := None |} in
  if language_eqb (language config) typescript then
    {| env := env eslintConfig;
       extends := push (extends eslintConfig)
                    ["plugin:@typescript-eslint/recommended"; "prettier"];
       parserOptions := parserOptions eslintConfig;
       rules := rules eslintConfig;
       parser := Some "@typescript-eslint/parser";
       plugins := Some ["@typescript-eslint"] |}
  else
    {| env := env eslintConfig;
       extends := push (extends eslintConfig) ["prettier"];
       parserOptions := parserOptions eslintConfig;
       rules := rules eslintConfig;
       parser := parser eslintConfig;
       plugins := plugins eslintConfig |}.

End Linting.

(** ** [testing.ts] *)

Module Testing.

(** [generateVitestConfig] *)
Definition generateVitestConfig : string :=
  lines ["import { defineConfig } from 'vitest/config';";
         "";
         "export default defineConfig({";
         "  test: {";
         "    globals: true,";
         "    environment: 'node',";
         "    coverage: {";
         "      provider: 'v8',";
         "      reporter: ['text', 'json', 'html'],";
         "    },";
         "  },";
         "});";
         ""].

(** [generateJestConfig] *)
Definition generateJestConfig (config : ProjectConfig) : string :=
  if language_eqb (language config) typescript then
    let preset :=
      if moduleType_eqb (moduleType config) esm
      then "ts-jest/presets/default-esm" else "ts-jest" in
    let extensionsToTreatAsEsm :=
      if moduleType_eqb (moduleType config) esm
      then "  extensionsToTreatAsEsm: ['.ts']," ++ nl else EmptyString in
    lines ["import type { Config } from 'jest';";
           "";
           "const config: Config = {";
           "  preset: '" ++ preset ++ "',";
           extensionsToTreatAsEsm ++ "  testEnvironment: 'node',";
           "  roots: ['<rootDir>/src'],";
           "  testMatch: ['**/__tests__/**/*.ts', '**/?(*.)+(spec|test).ts'],";
           "  collectCoverageFrom: [";
           "    'src/**/*.ts',";
           "    '!src/**/*.test.ts',";
           "    '!src/**/*.spec.ts',";
           "  ],";
           "};";
           "";
           "export default config;";
           ""]
  else
    lines ["export default {";
           "  testEnvironment: 'node',";
           "  roots: ['<rootDir>/src'],";
           "  testMatch: ['**/__tests__/**/*.js', '**/?(*.)+(spec|test).js'],";
           "  collectCoverageFrom: [";
           "    'src/**/*.js',";
           "    '!src/**/*.test.js',";
           "    '!src/**/*.spec.js',";
           "  ],";
           "};";
           ""].

End Testing.

(** ** [gitConfig.ts] *)

Module GitConfigUtil.

(** [formatGitConfig] *)
Definition formatGitConfig (config : Index.GitConfig) : string :=
  if negb (truthy (Index.gc_name config))
     && negb (truthy (Index.gc_email config))
  then EmptyString
  else if truthy (Index.gc_name config) && truthy (Index.gc_email config)
  then text (Index.gc_name config) ++ " <" ++ text (Index.gc_email config)
         ++ ">"
  else if truthy (Index.gc_name config) then text (Index.gc_name config)
  else if truthy (Index.gc_email config) then text (Index.gc_email config)
  else EmptyString.

End GitConfigUtil.

(** ** [index.ts]: the preview of a dry run *)

Module DryRun.

(** The lines that the action logs, in the dry-run mode, under the heading
    [Files that would be created:]. *)
Definition dryRunPreview (config : ProjectConfig)
  (finalPackageName : string) : list string :=
  let ext :=
    if language_eqb (language config) typescript then "ts" else "js" in
  let log : list string := [] in
  let log := push log ["  " ++ finalPackageName ++ "/"] in
  let log := push log ["    src/"] in
  let log := push log ["      index." ++ ext] in
  let log :=
    if negb (testRunner_eqb (testRunner config) none)
    then push log ["      index.test." ++ ext]
    else log in
  let log := push log ["    package.json"] in
  let log := push log ["    README.md"] in
  let log := push log ["    .gitignore"] in
  let log :=
    if language_eqb (language config) typescript then
      let log :=
        push log
          ["    .npmignore         # Exclude source files from npm package"] in
      let log := push log ["    tsconfig.json"] in
      let log := push log ["    tsup.config.ts"] in
      let log :=
        push log
          ["    index.js           # Root re-export for better IDE autocomplete"] in
      let log := push log ["    index.d.ts         # Root type definitions"] in
      if moduleType_eqb (moduleType config) dual
      then push log ["    index.mjs          # ESM re-export for dual format"]
      else log
    else log in
  let log :=
    if useLinting config then
      push (push (push log ["    .eslintrc.json"]) ["    .prettierrc"])
        ["    .editorconfig"]
    else log in
  let log :=
    if testRunner_eqb (testRunner config) vitest
    then push log ["    vitest.config.ts"]
    else if testRunner_eqb (testRunner config) jest
    then push log ["    jest.config." ++ ext]
    else log in
  let log :=
    if truthyb (setupCI config)
    then push log ["    .github/workflows/ci.yml"] else log in
  let log :=
    if truthyb (setupCD config)
    then push log ["    .github/workflows/publish.yml"] else log in
  let log :=
    if truthyb (useDependabot config)
    then push log ["    .github/dependabot.yml"] else log in
  log.

End DryRun.

(** ** The project tree *)

(** A directory or a file of the generated project, by the components of its
    path under the target directory. *)
Inductive entry :=
| Dir (components : list string)
| File (components : list string).

(** The path of an entry: [path.join] of the target directory and the
    components, one after the other. *)
Definition entry_path (dir : string) (components : list string) : string :=
  fold_left Index.path_join components dir.

Definition entry_event (dir : string) (e : entry) : Index.event :=
  match e with
  | Dir c => Index.Mkdir (entry_path dir c)
  | File c => Index.WriteFile (entry_path dir c)
  end.

(** The entries that [createProject] creates for a configuration, in order,
    the target directory first. *)
Definition projectEntries (config : ProjectConfig) : list entry :=
  let ext :=
    if language_eqb (language config) typescript then "ts" else "js" in
  ([Dir []; Dir ["src"]; File ["src"; ("index." ++ ext)%string]]
   ++ (if negb (testRunner_eqb (testRunner config) none)
       then [File ["src"; ("index.test." ++ ext)%string]] else [])
   ++ [File ["package.json"]; File ["README.md"]; File [".gitignore"]]
   ++ (if language_eqb (language config) typescript
       then [File [".npmignore"]; File ["tsconfig.json"];
             File ["tsup.config.ts"]; File ["index.js"]; File ["index.d.ts"]]
            ++ (if moduleType_eqb (moduleType config) dual
                then [File ["index.mjs"]] else [])
       else [])
   ++ (if useLinting config
       then [File [".eslintrc.json"]; File [".prettierrc"];
             File [".editorconfig"]]
       else [])
   ++ (if testRunner_eqb (testRunner config) vitest
       then [File ["vitest.config.ts"]]
       else if testRunner_eqb (testRunner config) jest
       then [File [("jest.config." ++ ext)%string]]
       else [])
   ++ (if truthyb (setupCD config) || truthyb (setupCI config)
          || truthyb (useDependabot config)
       then [Dir [".github"; "workflows"]]
            ++ (if truthyb (setupCD config)
                then [File [".github"; "workflows"; "publish.yml"]] else [])
            ++ (if truthyb (setupCI config)
                then [File [".github"; "workflows"; "ci.yml"]] else [])
            ++ (if truthyb (useDependabot config)
                then [File [".github"; "dependabot.yml"]] else [])
       else []))%list.

(** The files among the entries, as paths relative to the target directory
    with [/] between the components. *)
Definition relative_files (es : list entry) : list string :=
  flat_map (fun e => match e with
                     | Dir _ => []
                     | File c => [join "/" c]
                     end) es.

(** *** Reading a tree listing

    A listing shows one name per line, indented by its depth; a name that
    ends with [/] is a directory, and the names below it with a deeper
    indentation are inside it.  A remark may follow the name after a
    space. *)

Fixpoint indent_of (s : string) : nat :=
  match s with
  | String " "%char s' => S (indent_of s')
  | _ => O
  end.

Fixpoint drop_indent (s : string) : string :=
  match s with
  | String " "%char s' => drop_indent s'
  | _ => s
  end.

(** The text up to the first space. *)
Fixpoint first_word (s : string) : string :=
  match s with
  | EmptyString => EmptyString
  | String " "%char _ => EmptyString
  | String c s' => String c (first_word s')
  end.

Fixpoint ends_with_slash (s : string) : bool :=
  match s with
  | EmptyString => false
  | String c EmptyString => Ascii.eqb c "/"%char
  | String _ s' => ends_with_slash s'
  end.

(** The files of a listing; [open] holds the directories the current line is
    inside, innermost first, each with its indentation. *)
Fixpoint listed_files (open : list (nat * string)) (listing : list string)
  : list string :=
  match listing with
  | [] => []
  | line :: listing' =>
      let n := indent_of line in
      let name := first_word (drop_indent line) in
      let open := filter (fun d => Nat.ltb (fst d) n) open in
      if ends_with_slash name
      then listed_files ((n, name) :: open) listing'
      else (String.concat EmptyString (rev (map snd open)) ++ name)
             :: listed_files open listing'
  end.

(** [l1] and [l2] have the same members. *)
Definition same_members (l1 l2 : list string) : Prop :=
  (forall x, In x l1 <-> In x l2) /\ List.length l1 = List.length l2.

(** A computation that succeeds and extends the trace with the creation of
    the entries [es] under [dir]. *)
Definition creates (dir : string) (m : Index.M unit) (es : list entry)
  : Prop :=
  forall t0,
    m t0 = (Index.Done tt, (t0 ++ map (entry_event dir) es)%list).

(** The strings of a JSON value that is a string, or an object of strings. *)
Definition json_strings (v : json) : list string :=
  match v with
  | JString s => [s]
  | JObject o =>
      flat_map (fun kv => match snd kv with
                          | JString s => [s]
                          | _ => []
                          end) o
  | JArray _ => []
  end.

(** The files that a manifest points at: its [main], [module] and [types]
    entries, and the targets of the root entry of its export map. *)
Definition entry_targets (pkg : props) : list string :=
  flat_map (fun k => match get pkg k with
                     | Some v => json_strings v
                     | None => []
                     end) ["main"; "module"; "types"]
  ++ match get pkg "exports" with
     | Some (JObject o) =>
         match get o "." with
         | Some v => json_strings v
         | None => []
         end
     | _ => []
     end.


(** A relative path is shipped by an allow-list when the list names it, or
    names a directory above it. *)
Definition shipped (files : list string) (f : string) : Prop :=
  In f files \/ exists d rest, In d files /\ f = d ++ "/" ++ rest.

(** The package that provides a command-line tool of the scripts. *)
Definition provider (tool : string) : option string :=
  if String.eqb tool "tsup" then Some "tsup"
  else if String.eqb tool "tsc" then Some "typescript"
  else if String.eqb tool "vitest" then Some "vitest"
  else if String.eqb tool "jest" then Some "jest"
  else if String.eqb tool "eslint" then Some "eslint"
  else if String.eqb tool "prettier" then Some "prettier"
  else if String.eqb tool "attw" then Some "@arethetypeswrong/cli"
  else None.

(** Every script whose command starts with a known tool has the package of
    that tool among [packages]. *)
Definition tools_provided (scripts : PackageJson.scripts_t)
  (packages : list string) : bool :=
  forallb (fun kv => match provider (first_word (snd kv)) with
                     | Some p => existsb (String.eqb p) packages
                     | None => true
                     end) scripts.

(** The packages that an ESLint configuration loads: its parser, the package
    of each plugin, and the shareable configuration [prettier]. *)
Definition eslint_packages (c : Linting.ESLintConfig) : list string :=
  (match Linting.parser c with Some p => [p] | None => [] end)
  ++ (match Linting.plugins c with
      | Some ps => map (fun p => p ++ "/eslint-plugin")%string ps
      | None => []
      end)
  ++ (if existsb (String.eqb "prettier") (Linting.extends c)
      then ["eslint-config-prettier"] else []).

(** The configuration that [--yes] stands for, for a package name and the
    detected package manager. *)
Definition default_bundle (name : string) (pm : PackageManager)
  : ProjectConfig :=
  {| packageName := name; language := typescript; moduleType := dual;
     testRunner := vitest; useLinting := true; initGit := false;
     setupCI := Some true; setupCD := Some false; useCodecov := Some false;
     useDependabot := Some false; packageManager := Some pm;
     description := None; author := None; authorEmail := None;
     githubUsername := None |}.

(** An optional string is absent or not empty. *)
Definition absent_or_filled (s : option string) : Prop :=
  s = None \/ truthy s = true.

(** No event of the trace satisfies [p]. *)
Definition never (p : Index.event -> bool) (t : Index.trace) : Prop :=
  forall e, In e t -> p e = false.

Definition is_asked (e : Index.event) : bool :=
  match e with Index.Asked _ _ => true | _ => false end.

Definition is_exec (e : Index.event) : bool :=
  match e with Index.Exec _ => true | _ => false end.

Definition is_save (e : Index.event) : bool :=
  match e with Index.WriteUserConfig => true | _ => false end.

(** The subprocesses that only read: the look-up of a name on the
    registry, and the two commands of [readGitConfig]. *)
Definition is_lookup (command : string) : bool :=
  String.prefix "npm view " command
  || String.eqb command "git config --global user.name"
  || String.eqb command "git config --global user.email".

(** A subprocess other than a look-up. *)
Definition is_exec_beyond_lookup (e : Index.event) : bool :=
  match e with
  | Index.Exec c => negb (is_lookup c)
  | _ => false
  end.

(** The question [q] is asked in the event. *)
Definition asks (q : Index.question) (e : Index.event) : bool :=
  match e with
  | Index.Asked q' _ =>
      match q, q' with
      | Index.QName, Index.QName | Index.QCreate, Index.QCreate
      | Index.QContinue, Index.QContinue | Index.QLanguage, Index.QLanguage
      | Index.QTestRunner, Index.QTestRunner
      | Index.QLinting, Index.QLinting | Index.QGit, Index.QGit
      | Index.QCI, Index.QCI | Index.QCD, Index.QCD
      | Index.QCodecov, Index.QCodecov
      | Index.QDependabot, Index.QDependabot
      | Index.QDescription, Index.QDescription
      | Index.QUseGitConfig, Index.QUseGitConfig
      | Index.QAuthor, Index.QAuthor | Index.QEmail, Index.QEmail
      | Index.QGithub, Index.QGithub | Index.QSave, Index.QSave
      | Index.QPackageManager, Index.QPackageManager
      | Index.QProceed, Index.QProceed | Index.QInstall, Index.QInstall =>
          true
      | _, _ => false
      end
  | _ => false
  end.


(** The conditions of the root entry of the export map of a manifest. *)
Definition export_conditions (pkg : props) : list string :=
  match get pkg "exports" with
  | Some (JObject o) =>
      match get o "." with
      | Some (JObject conditions) => keys conditions
      | _ => []
      end
  | _ => []
  end.

Definition is_member (x : string) (l : list string) : bool :=
  existsb (String.eqb x) l.

(** The warnings that the registry attached to the packages it found. *)
Definition lookup_warnings
  (versionMap : string -> option PackageJsonAsync.VersionResult)
  (packages : list string) : list string :=
  flat_map (fun pkg =>
              match versionMap pkg with
              | Some result =>
                  if truthy (PackageJsonAsync.warning result)
                  then [text (PackageJsonAsync.warning result)] else []
              | None => []
              end) packages.

(** The options of an unattended run: [--yes], with or without [--dry-run]
    and [--skip-install]. *)
Definition unattended_options (dry skip : bool) : Index.Options :=
  {| Index.yes := true; Index.dryRun := dry; Index.skipInstall := skip;
     Index.noSave := false; Index.resetConfig := false;
     Index.config_flag := false; Index.typescript_flag := false;
     Index.javascript_flag := false; Index.vitest_flag := false;
     Index.jest_flag := false; Index.tests_flag := true;
     Index.lint_flag := true; Index.git_flag := true |}.

(** A world for the command line [name --yes]: nobody answers, no directory
    exists yet, and the name is free on the registry. *)
Definition unattended (name : string) (dry skip : bool) : Index.World :=
  {| Index.arg_packageName := Some name;
     Index.options := unattended_options dry skip;
     Index.cwd := "/home/dev";
     Index.existsSync := nothing_exists;
     Index.exec_ok := fun c => negb (String.prefix "npm view " c);
     Index.fs_ok := all_ok;
     Index.storedConfig := None;
     Index.gitConfig := None;
     Index.detectedPackageManager := pnpm;
     Index.answer_name := None;
     Index.answer_create := None;
     Index.answer_continue := None;
     Index.answer_language := None;
     Index.answer_testRunner := None;
     Index.answer_linting := None;
     Index.answer_git := None;
     Index.answer_ci := None;
     Index.answer_cd := None;
     Index.answer_codecov := None;
     Index.answer_dependabot := None;
     Index.answer_description := None;
     Index.answer_useGitConfig := None;
     Index.answer_author := None;
     Index.answer_email := None;
     Index.answer_github := None;
     Index.answer_save := None;
     Index.answer_packageManager := None;
     Index.answer_proceed := None;
     Index.answer_install := None |}.

(** A world with another stored profile and another answer to the question
    about saving the author data. *)
Definition with_profile (w : Index.World) (profile : option Index.UserConfig)
  (save : option bool) : Index.World :=
  {| Index.arg_packageName := Index.arg_packageName w;
     Index.options := Index.options w;
     Index.cwd := Index.cwd w;
     Index.existsSync := Index.existsSync w;
     Index.exec_ok := Index.exec_ok w;
     Index.fs_ok := Index.fs_ok w;
     Index.storedConfig := profile;
     Index.gitConfig := Index.gitConfig w;
     Index.detectedPackageManager := Index.detectedPackageManager w;
     Index.answer_name := Index.answer_name w;
     Index.answer_create := Index.answer_create w;
     Index.answer_continue := Index.answer_continue w;
     Index.answer_language := Index.answer_language w;
     Index.answer_testRunner := Index.answer_testRunner w;
     Index.answer_linting := Index.answer_linting w;
     Index.answer_git := Index.answer_git w;
     Index.answer_ci := Index.answer_ci w;
     Index.answer_cd := Index.answer_cd w;
     Index.answer_codecov := Index.answer_codecov w;
     Index.answer_dependabot := Index.answer_dependabot w;
     Index.answer_description := Index.answer_description w;
     Index.answer_useGitConfig := Index.answer_useGitConfig w;
     Index.answer_author := Index.answer_author w;
     Index.answer_email := Index.answer_email w;
     Index.answer_github := Index.answer_github w;
     Index.answer_save := save;
     Index.answer_packageManager := Index.answer_packageManager w;
     Index.answer_proceed := Index.answer_proceed w;
     Index.answer_install := Index.answer_install w |}.

Definition jane : Index.UserConfig :=
  {| Index.uc_author := Some "Jane Doe";
     Index.uc_email := Some "jane@example.com";
     Index.uc_github := Some "jane" |}.


(** ** Further notions for the properties of the code *)



(** No file of the project has an empty path. *)
Definition named (e : entry) : bool :=
  match e with File [] => false | _ => true end.

(** [same_members], decided. *)
Definition same_membersb (l1 l2 : list string) : bool :=
  forallb (fun x => is_member x l2) l1
  && forallb (fun x => is_member x l1) l2
  && Nat.eqb (List.length l1) (List.length l2).


(** * Properties *)

(** ** The manifest *)

Lemma append_assoc (a b c : string) : (a ++ b) ++ c = a ++ (b ++ c).
Proof.
  induction a as [|x a IH]; simpl; [reflexivity | now rewrite IH].
Qed.

Lemma append_empty_r (a : string) : a ++ EmptyString = a.
Proof.
  induction a as [|x a IH]; simpl; [reflexivity | now rewrite IH].
Qed.

Lemma manifest_table (config : ProjectConfig) :
  let pkg := PackageJson.generatePackageJson config in
  get pkg "type" = Some (JString (type_field (moduleType config)))
  /\ entry_point_table config pkg.
Proof.
  destruct config as [pn l m tr li gi ci cd cc db pm d a ae gh].
  unfold PackageJson.generatePackageJson, entry_point_table.
  destruct l, m; cbn [language moduleType githubUsername];
    destruct (truthy gh); cbn; repeat split; reflexivity.
Qed.

Lemma manifest_table_async fetch engines (config : ProjectConfig) :
  let pkg := fst (PackageJsonAsync.generatePackageJson fetch engines config) in
  get pkg "type" = Some (JString (type_field (moduleType config)))
  /\ entry_point_table config pkg.
Proof.
  unfold PackageJsonAsync.generatePackageJson.
  destruct (PackageJsonAsync.generateDevDependencies fetch config) as [deps ws].
  destruct config as [pn l m tr li gi ci cd cc db pm d a ae gh].
  unfold entry_point_table, PackageJsonAsync.generateEntryPoints.
  destruct l, m; cbn [language moduleType githubUsername];
    destruct (truthy gh); cbn; repeat split; reflexivity.
Qed.

(** C1.  For each of the six combinations of language and module format, the
    manifest that [generatePackageJson] produces (in both revisions of the
    generator, whatever the registry answers) has the [type] field
    [commonjs] exactly for the commonjs format and [module] otherwise, and
    its [main], [module], [types] and [exports] entries are those of the
    table of section 4.2, rule 2; for TypeScript and dual, [main] is
    [./index.js], [module] is [./index.mjs], and the export map has exactly
    the conditions [types], [import] (the [.mjs] file) and [require] (the
    [.js] file). *)
Theorem manifest_entry_points_match_table (config : ProjectConfig) :
  (get (PackageJson.generatePackageJson config) "type"
   = Some (JString (type_field (moduleType config)))
   /\ entry_point_table config (PackageJson.generatePackageJson config))
  /\ forall fetch engines,
       let pkg :=
         fst (PackageJsonAsync.generatePackageJson fetch engines config) in
       get pkg "type" = Some (JString (type_field (moduleType config)))
       /\ entry_point_table config pkg.
Proof.
  split.
  - exact (manifest_table config).
  - intros fetch engines. exact (manifest_table_async fetch engines config).
Qed.

Lemma generateFilesList_spec (config : ProjectConfig) :
  PackageJson.generateFilesList config
  = files_allow_list (language config) (moduleType config).
Proof.
  unfold PackageJson.generateFilesList.
  destruct (language config), (moduleType config); reflexivity.
Qed.

(** C5.  The [files] allow-list is exactly [src] for JavaScript; for
    TypeScript it is [dist], [index.js] and [index.d.ts], followed by
    [index.mjs] exactly when the module format is dual.  This is what
    [generateFilesList] returns and what both revisions of the manifest carry
    in their [files] entry. *)
Theorem files_allow_list_exact (config : ProjectConfig) :
  PackageJson.generateFilesList config
  = files_allow_list (language config) (moduleType config)
  /\ get (PackageJson.generatePackageJson config) "files"
     = Some (strings (files_allow_list (language config) (moduleType config)))
  /\ forall fetch engines,
       get (fst (PackageJsonAsync.generatePackageJson fetch engines config))
         "files"
       = Some (strings
                 (files_allow_list (language config) (moduleType config))).
Proof.
  split; [apply generateFilesList_spec |].
  split.
  - rewrite <- generateFilesList_spec.
    destruct config as [pn l m tr li gi ci cd cc db pm d a ae gh].
    unfold PackageJson.generatePackageJson.
    destruct l, m; cbn [language moduleType githubUsername];
      destruct (truthy gh); reflexivity.
  - intros fetch engines. rewrite <- generateFilesList_spec.
    unfold PackageJsonAsync.generatePackageJson.
    destruct (PackageJsonAsync.generateDevDependencies fetch config)
      as [deps ws].
    destruct config as [pn l m tr li gi ci cd cc db pm d a ae gh].
    unfold PackageJsonAsync.generateEntryPoints,
      PackageJsonAsync.generateFilesList.
    destruct l, m; cbn [language moduleType githubUsername];
      destruct (truthy gh); reflexivity.
Qed.

Lemma authorField_spec (config : ProjectConfig) :
  PackageJson.authorField config
  = if truthy (author config) then author_string config else EmptyString.
Proof.
  unfold PackageJson.authorField, author_string.
  destruct (truthy (author config)); [| reflexivity].
  destruct (truthy (authorEmail config)), (truthy (githubUsername config));
    rewrite ?append_assoc, ?append_empty_r; reflexivity.
Qed.

Lemma manifest_metadata (config : ProjectConfig) :
  metadata_entries config (PackageJson.generatePackageJson config).
Proof.
  unfold metadata_entries. rewrite <- authorField_spec.
  destruct config as [pn l m tr li gi ci cd cc db pm d a ae gh].
  unfold PackageJson.generatePackageJson, or_else.
  destruct l, m; cbn [language moduleType githubUsername description];
    destruct (truthy gh); cbn; repeat split; reflexivity.
Qed.

Lemma manifest_metadata_async fetch engines (config : ProjectConfig) :
  metadata_entries config
    (fst (PackageJsonAsync.generatePackageJson fetch engines config)).
Proof.
  unfold metadata_entries. rewrite <- authorField_spec.
  unfold PackageJsonAsync.generatePackageJson.
  destruct (PackageJsonAsync.generateDevDependencies fetch config)
    as [deps ws].
  destruct config as [pn l m tr li gi ci cd cc db pm d a ae gh].
  unfold PackageJsonAsync.generateEntryPoints, or_else.
  destruct l, m; cbn [language moduleType githubUsername description];
    destruct (truthy gh); cbn; repeat split; reflexivity.
Qed.

(** C4, as stated, fails: for a configuration with neither description nor
    author, the manifest still has a [description] entry, holding a default
    text, and an [author] entry, holding the empty string. *)
Lemma absent_metadata_is_not_omitted :
  description bare_config = None
  /\ author bare_config = None
  /\ get (PackageJson.generatePackageJson bare_config) "description"
     = Some (JString "A new npm package")
  /\ get (PackageJson.generatePackageJson bare_config) "author"
     = Some (JString EmptyString).
Proof.
  repeat split; reflexivity.
Qed.

(** C4, amended.  In the manifest of every configuration (both revisions of
    the generator): the [description] entry is the description when there is
    one and the text [A new npm package] otherwise; the [author] entry is the
    empty string when there is no author name, and otherwise the name
    followed by the e-mail segment and by the GitHub segment, each of them
    left out independently when its field is absent; the [repository], [bugs]
    and [homepage] entries are present together when there is a GitHub
    username and are all omitted otherwise. *)
Theorem manifest_optional_metadata (config : ProjectConfig) :
  metadata_entries config (PackageJson.generatePackageJson config)
  /\ forall fetch engines,
       metadata_entries config
         (fst (PackageJsonAsync.generatePackageJson fetch engines config)).
Proof.
  split.
  - apply manifest_metadata.
  - intros. apply manifest_metadata_async.
Qed.

(** ** The scripts of the manifest *)

(** The test scripts of the current revision: [test], [test:watch] and
    [test:coverage] are present exactly when a runner is selected, whatever
    [setupCI] is. *)
Lemma generateScripts_tests (config : ProjectConfig) :
  PackageJson.find (PackageJsonAsync.generateScripts config) "test"
  = test_script (testRunner config)
  /\ PackageJson.find (PackageJsonAsync.generateScripts config) "test:watch"
     = watch_script (testRunner config)
  /\ PackageJson.find (PackageJsonAsync.generateScripts config)
       "test:coverage"
     = coverage_script (testRunner config).
Proof.
  destruct config as [pn l m tr li gi ci cd cc db pm d a ae gh].
  unfold PackageJsonAsync.generateScripts.
  cbn [language testRunner useLinting useDependabot setupCD].
  destruct l, tr, li, (truthyb db), (truthyb cd);
    repeat split; vm_compute; reflexivity.
Qed.

(** The test scripts of the earlier revision: [test] and [test:watch] are
    present exactly when a runner is selected, and there is never a
    [test:coverage] script. *)
Lemma generateScripts_tests_earlier (config : ProjectConfig) :
  PackageJson.find (PackageJson.generateScripts config) "test"
  = test_script (testRunner config)
  /\ PackageJson.find (PackageJson.generateScripts config) "test:watch"
     = watch_script (testRunner config)
  /\ PackageJson.find (PackageJson.generateScripts config) "test:coverage"
     = None.
Proof.
  destruct config as [pn l m tr li gi ci cd cc db pm d a ae gh].
  unfold PackageJson.generateScripts.
  cbn [language testRunner useLinting].
  destruct l, tr, li; repeat split; reflexivity.
Qed.

(** C2, at the failing input.  For a project with Vitest and without CI,
    [generateScripts] emits the [test:coverage] script, although CI is not
    enabled; the coverage provider that this script needs is requested from
    the registry only when CI is enabled, and is not requested here. *)
Theorem coverage_script_emitted_without_ci :
  truthyb (setupCI tests_without_ci) = false
  /\ PackageJson.find (PackageJsonAsync.generateScripts tests_without_ci)
       "test:coverage"
     = Some "vitest run --coverage"
  /\ existsb (String.eqb "@vitest/coverage-v8")
       (PackageJsonAsync.packagesToFetch tests_without_ci)
     = false.
Proof.
  repeat split; reflexivity.
Qed.

(** ** The workflows *)

Lemma prefix_spec (n h : string) :
  String.prefix n h = true <-> exists suf, h = n ++ suf.
Proof.
  revert h. induction n as [|c n IH]; intros h.
  - split; [intros _; now exists h | intros _; now destruct h].
  - destruct h as [|d h]; simpl.
    + split; [discriminate | intros [suf H]; discriminate].
    + destruct (Ascii.ascii_dec c d) as [->|Hcd].
      * rewrite IH. split; intros [suf H]; exists suf.
        -- now rewrite H.
        -- now inversion H.
      * split; [discriminate |].
        intros [suf H]. simpl in H. congruence.
Qed.

Lemma includes_unfold (h n : string) :
  includes h n
  = if String.prefix n h then true
    else match h with
         | EmptyString => false
         | String _ h' => includes h' n
         end.
Proof.
  destruct h; reflexivity.
Qed.

(** [includes] decides the occurrence of a text. *)
Lemma includes_spec (h n : string) :
  includes h n = true <-> Substring n h.
Proof.
  unfold Substring. induction h as [|c h IH];
    rewrite includes_unfold;
    match goal with |- context [String.prefix n ?x] =>
      destruct (String.prefix n x) eqn:E end.
  - split; [intros _ | reflexivity].
    apply prefix_spec in E. destruct E as [suf E].
    exists EmptyString, suf. exact E.
  - split; [discriminate |].
    intros [pre [suf H]]. destruct pre; [| discriminate].
    simpl in H.
    assert (String.prefix n EmptyString = true) as E'
      by (apply prefix_spec; now exists suf).
    congruence.
  - split; [intros _ | reflexivity].
    apply prefix_spec in E. destruct E as [suf E].
    exists EmptyString, suf. exact E.
  - rewrite IH. split.
    + intros [pre [suf H]]. exists (String c pre), suf. simpl. now rewrite H.
    + intros [pre [suf H]]. destruct pre as [|c' pre].
      * simpl in H.
        assert (String.prefix n (String c h) = true) as E'
          by (apply prefix_spec; now exists suf).
        congruence.
      * simpl in H. inversion H. now exists pre, suf.
Qed.

(** The steps of the CI workflow of [workflows.ts]: the type check exactly
    for TypeScript, the lint step exactly with linting, the test step exactly
    with a test runner, the build step always, and the upload of coverage
    exactly with a test runner; the workflow has no publish step. *)
Lemma generateCIWorkflow_steps (config : ProjectConfig) :
  let workflow := Workflows.generateCIWorkflow config in
  includes workflow "npm run typecheck"
  = language_eqb (language config) typescript
  /\ includes workflow "npm run lint" = useLinting config
  /\ includes workflow "npm test"
     = negb (testRunner_eqb (testRunner config) none)
  /\ includes workflow "npm run build" = true
  /\ includes workflow "codecov"
     = negb (testRunner_eqb (testRunner config) none)
  /\ includes workflow "publish" = false.
Proof.
  destruct config as [pn l m tr li gi ci cd cc db pm d a ae gh].
  unfold Workflows.generateCIWorkflow, Workflows.ciSteps.
  cbn [language testRunner useLinting].
  destruct l, tr, li; vm_compute; repeat split; reflexivity.
Qed.

(** In the publish workflow the build step is the last step before the
    publish step, which ends the list. *)
Lemma generateCDWorkflow_build_then_publish (config : ProjectConfig) :
  exists before,
    Workflows.cdSteps config
    = (before
       ++ [lines ["      - name: Build";
                  "        run: npm run build"];
           lines ["      - name: Publish to npm";
                  "        run: npm publish";
                  "        env:";
                  "          NODE_AUTH_TOKEN: ${{ secrets.NPM_TOKEN }}"]])%list.
Proof.
  unfold Workflows.cdSteps, push. cbv zeta.
  match goal with
  | |- exists before, ((?x ++ _) ++ _)%list = _ => exists x
  end.
  now rewrite <- app_assoc.
Qed.

(** The cases of the unit tests written for this revision of the workflow
    generator. *)
Lemma generateCIWorkflow_unit_tests :
  forallb (includes (Workflows.generateCIWorkflow
                       (workflow_test_config typescript vitest true)))
    ["name: CI"; "on:"; "push:"; "pull_request:"; "matrix:";
     "node-version: [18, 20, 22]"; "npm run typecheck"; "npm run lint";
     "npm test"; "npm run build"; "codecov"]
  = true
  /\ includes (Workflows.generateCIWorkflow
                 (workflow_test_config javascript vitest true))
       "npm run typecheck" = false
  /\ includes (Workflows.generateCIWorkflow
                 (workflow_test_config typescript vitest false))
       "npm run lint" = false
  /\ includes (Workflows.generateCIWorkflow
                 (workflow_test_config typescript none true))
       "npm test" = false
  /\ includes (Workflows.generateCIWorkflow
                 (workflow_test_config typescript none true))
       "codecov" = false.
Proof.
  repeat split; vm_compute; reflexivity.
Qed.

(** C3, at the failing input.  For a TypeScript project with Vitest and CI
    whose [useCodecov] is [false], the workflow of [generateCIWorkflow] has
    the step that uploads coverage to Codecov. *)
Theorem coverage_upload_without_opt_in :
  useCodecov ci_without_codecov = Some false
  /\ includes (Workflows.generateCIWorkflow ci_without_codecov) "codecov"
     = true
  /\ Substring "      - name: Upload coverage to Codecov"
       (Workflows.generateCIWorkflow ci_without_codecov).
Proof.
  split; [reflexivity |]. split; [vm_compute; reflexivity |].
  apply includes_spec. vm_compute. reflexivity.
Qed.

(** ** Texts that occur in a text *)

Lemma Substring_here (n pre suf : string) : Substring n (pre ++ n ++ suf).
Proof.
  now exists pre, suf.
Qed.

Lemma Substring_self (n : string) : Substring n n.
Proof.
  exists EmptyString, EmptyString. simpl. now rewrite append_empty_r.
Qed.

Lemma Substring_app_l (n a b : string) :
  Substring n a -> Substring n (a ++ b).
Proof.
  intros [pre [suf ->]]. exists pre, (suf ++ b).
  now rewrite !append_assoc.
Qed.

Lemma Substring_app_r (n a b : string) :
  Substring n b -> Substring n (a ++ b).
Proof.
  intros [pre [suf ->]]. exists (a ++ pre), suf.
  now rewrite !append_assoc.
Qed.

Lemma Substring_join (n sep x : string) (l : list string) :
  In x l -> Substring n x -> Substring n (join sep l).
Proof.
  intros Hin Hx. induction l as [|y l IH]; [contradiction |].
  destruct l as [|z l].
  - destruct Hin as [->|[]]. exact Hx.
  - change (join sep (y :: z :: l)) with (y ++ sep ++ join sep (z :: l)).
    destruct Hin as [->|Hin].
    + now apply Substring_app_l.
    + apply Substring_app_r, Substring_app_r. now apply IH.
Qed.

Lemma Substring_line (sep n : string) (l : list string) :
  In n l -> Substring n (join sep l).
Proof.
  intros Hin. apply Substring_join with (x := n); [exact Hin |].
  apply Substring_self.
Qed.

Ltac pick_line := repeat first [left; reflexivity | right].

(** ** The root declaration file *)

Lemma generateRootIndexDts_text (config : ProjectConfig) :
  Files.generateRootIndexDts config = root_index_dts (packageName config).
Proof.
  unfold Files.generateRootIndexDts, Files.typeReference, root_index_dts.
  destruct (moduleType_eqb (moduleType config) dual); reflexivity.
Qed.

(** C9.  Two configurations with the same package name get the same root
    declaration file from [generateRootIndexDts], whatever their module
    formats.  The file is, in every case and for dual as well, the comment
    header with the package name followed by the two statements that
    re-export from [./dist/index]: the output is the text [root_index_dts]
    of the package name, it contains both re-export statements, the type
    reference is [./dist/index], and the text that follows the package name
    does not mention [.mjs]. *)
Theorem root_index_dts_independent_of_format (c1 c2 : ProjectConfig)
  (Hname : packageName c1 = packageName c2) :
  Files.generateRootIndexDts c1 = Files.generateRootIndexDts c2
  /\ Files.generateRootIndexDts c1 = root_index_dts (packageName c1)
  /\ Substring "export * from './dist/index';" (Files.generateRootIndexDts c1)
  /\ Substring "export { default } from './dist/index';"
       (Files.generateRootIndexDts c1)
  /\ Files.typeReference c1 = "./dist/index"
  /\ exists rest,
       Files.generateRootIndexDts c1
       = "/**" ++ nl ++ " * " ++ packageName c1 ++ rest
       /\ includes rest ".mjs" = false.
Proof.
  split; [now rewrite !generateRootIndexDts_text, Hname |].
  split; [apply generateRootIndexDts_text |].
  split; [| split].
  - rewrite generateRootIndexDts_text. unfold root_index_dts, lines.
    apply Substring_line. pick_line.
  - rewrite generateRootIndexDts_text. unfold root_index_dts, lines.
    apply Substring_line. pick_line.
  - split; [unfold Files.typeReference; now destruct (moduleType_eqb _ _) |].
    rewrite generateRootIndexDts_text. unfold root_index_dts, lines.
    eexists. split.
    + cbn [join]. rewrite !append_assoc. reflexivity.
    + vm_compute. reflexivity.
Qed.

Lemma root_index_dts_independent_of_format_witness :
  packageName esm_config = packageName bare_config
  /\ Files.generateRootIndexDts esm_config
     = Files.generateRootIndexDts bare_config.
Proof.
  split; [reflexivity |].
  apply (root_index_dts_independent_of_format esm_config bare_config).
  reflexivity.
Defined.

(** ** The README *)

Lemma badges_package (config : ProjectConfig) :
  (if truthy (Some (packageName config))
   then packageName config else "<package-name>")
  = badge_package config.
Proof.
  unfold badge_package. now destruct (packageName config).
Qed.

Lemma readme_has_badges (config : ProjectConfig) (n : string) :
  Substring n (Readme.badges config) ->
  Substring n (Readme.generateReadme config).
Proof.
  intros H. unfold Readme.generateReadme, lines. cbv zeta.
  apply Substring_join with (x := Readme.badges config
    ++ or_else (description config)
         "A new npm package created with forge-npm-pkg.").
  - right; right; left; reflexivity.
  - now apply Substring_app_l.
Qed.

Lemma readme_has_badge_line (config : ProjectConfig) (line : string) :
  In line
    ["![Last Commit](https://img.shields.io/github/last-commit/oharu121/"
       ++ badge_package config ++ ")";
     "![GitHub Stars](https://img.shields.io/github/stars/"
       ++ badge_account config ++ "/" ++ badge_package config
       ++ "?style=social)"] ->
  Substring line (Readme.generateReadme config).
Proof.
  intros Hline. apply readme_has_badges.
  unfold Readme.badges, lines, or_else. cbv zeta.
  rewrite badges_package. fold (badge_account config).
  destruct Hline as [<-|[<-|[]]]; apply Substring_line; pick_line.
Qed.

Lemma readme_ci_badge (config : ProjectConfig) :
  truthyb (setupCI config) = true ->
  Substring ("![CI Status](https://github.com/" ++ badge_account config ++ "/"
               ++ badge_package config
               ++ "/actions/workflows/ci.yml/badge.svg)")
    (Readme.generateReadme config).
Proof.
  intros Hci. apply readme_has_badges.
  unfold Readme.badges, lines, or_else. cbv zeta.
  rewrite badges_package. fold (badge_account config). rewrite Hci.
  eapply Substring_join;
    [do 7 right; left; reflexivity | apply Substring_app_r, Substring_self].
Qed.

(** C10.  The README of every configuration contains the Last Commit badge
    whose address names the account [oharu121], whatever the GitHub username
    of the configuration is; it also contains the GitHub Stars badge, whose
    address names the account of the configuration or, when there is none,
    the placeholder [<github-username>]: the badge block is emitted without a
    GitHub username as well. *)
Theorem readme_last_commit_badge_hard_coded (config : ProjectConfig) :
  Substring
    ("![Last Commit](https://img.shields.io/github/last-commit/oharu121/"
       ++ badge_package config ++ ")")
    (Readme.generateReadme config)
  /\ Substring
       ("![GitHub Stars](https://img.shields.io/github/stars/"
          ++ (if truthy (githubUsername config)
              then text (githubUsername config)
              else "<github-username>")
          ++ "/" ++ badge_package config ++ "?style=social)")
       (Readme.generateReadme config).
Proof.
  split; apply readme_has_badge_line.
  - left. reflexivity.
  - right. left. reflexivity.
Qed.

(** ** Regular expressions: the derivative test decides the language *)

Lemma append_nil_inv (a b : string) :
  a ++ b = EmptyString -> a = EmptyString /\ b = EmptyString.
Proof.
  destruct a; simpl; [auto | discriminate].
Qed.

Lemma nullable_spec (r : Regex.regex) :
  Regex.nullable r = true <-> Regex.Matches r EmptyString.
Proof.
  split.
  - induction r; simpl; intros H; try discriminate.
    + constructor.
    + apply andb_true_iff in H. destruct H as [H1 H2].
      change EmptyString with (EmptyString ++ EmptyString).
      constructor; auto.
    + apply orb_true_iff in H. destruct H as [H|H].
      * apply Regex.MAltL; auto.
      * apply Regex.MAltR; auto.
    + constructor.
  - intros H. remember EmptyString as s eqn:E.
    induction H; simpl; try reflexivity; try discriminate.
    + apply append_nil_inv in E. destruct E as [-> ->].
      rewrite IHMatches1, IHMatches2; auto.
    + rewrite IHMatches; auto.
    + rewrite IHMatches; auto. apply orb_true_r.
Qed.

Lemma deriv_sound (r : Regex.regex) (c : ascii) (s : string) :
  Regex.Matches (Regex.deriv c r) s -> Regex.Matches r (String c s).
Proof.
  revert s. induction r; simpl; intros s H.
  - inversion H.
  - inversion H.
  - destruct (p c) eqn:E; inversion H; subst. now constructor.
  - destruct (Regex.nullable r1) eqn:N.
    + inversion H; subst.
      * match goal with Hs : Regex.Matches (Regex.Seq _ _) _ |- _ =>
          inversion Hs; subst end.
        change (String c (s1 ++ s2)) with (String c s1 ++ s2).
        constructor; auto.
      * change (String c s) with (EmptyString ++ String c s).
        constructor; auto. now apply nullable_spec.
    + inversion H; subst.
      change (String c (s1 ++ s2)) with (String c s1 ++ s2).
      constructor; auto.
  - inversion H; subst.
    + apply Regex.MAltL; auto.
    + apply Regex.MAltR; auto.
  - inversion H; subst.
    change (String c (s1 ++ s2)) with (String c s1 ++ s2).
    constructor; auto.
Qed.

Lemma deriv_complete (r : Regex.regex) (c : ascii) (s : string) :
  Regex.Matches r (String c s) -> Regex.Matches (Regex.deriv c r) s.
Proof.
  intros H. remember (String c s) as s0 eqn:E. revert c s E.
  induction H; intros c0 s0 E; simpl.
  - discriminate.
  - inversion E; subst. rewrite H. constructor.
  - destruct s1 as [|d s1]; simpl in E.
    + subst s2. assert (Regex.nullable r1 = true) as ->
        by now apply nullable_spec.
      apply Regex.MAltR. now apply IHMatches2.
    + inversion E; subst.
      assert (Regex.Matches (Regex.Seq (Regex.deriv c0 r1) r2) (s1 ++ s2))
        by (constructor; auto).
      destruct (Regex.nullable r1); [now apply Regex.MAltL | assumption].
  - apply Regex.MAltL. now apply IHMatches.
  - apply Regex.MAltR. now apply IHMatches.
  - discriminate.
  - destruct s1 as [|d s1]; simpl in E.
    + subst s2. now apply IHMatches2.
    + inversion E; subst. constructor; auto.
Qed.

(** [test] decides membership in the language of the pattern. *)
Lemma test_spec (r : Regex.regex) (s : string) :
  Regex.test r s = true <-> Regex.Matches r s.
Proof.
  revert r. induction s as [|c s IH]; intros r; simpl.
  - apply nullable_spec.
  - rewrite IH. split; [apply deriv_sound | apply deriv_complete].
Qed.

Lemma all_chars_app (p : ascii -> bool) (a b : string) :
  all_chars p (a ++ b) = all_chars p a && all_chars p b.
Proof.
  induction a as [|c a IH]; simpl; [reflexivity |].
  now rewrite IH, andb_assoc.
Qed.

(** A string of the language only has characters of the classes of the
    pattern. *)
Lemma Matches_chars (P : ascii -> bool) (r : Regex.regex) (s : string) :
  Regex.Matches r s -> Regex.classes_within P r -> all_chars P s = true.
Proof.
  induction 1; simpl; intros HP; try reflexivity.
  - rewrite (HP c H). reflexivity.
  - destruct HP as [HP1 HP2].
    rewrite all_chars_app, IHMatches1, IHMatches2; auto.
  - destruct HP as [HP1 HP2]. auto.
  - destruct HP as [HP1 HP2]. auto.
  - rewrite all_chars_app, IHMatches1, IHMatches2; auto.
Qed.

Lemma all_chars_occurs (p : ascii -> bool) (s : string) (c : ascii) :
  all_chars p s = true -> occurs c s -> p c = true.
Proof.
  unfold occurs. induction s as [|d s IH]; simpl; [contradiction |].
  intros H [->|Hin]; apply andb_true_iff in H; destruct H as [H1 H2]; auto.
Qed.

Lemma star_class (p : ascii -> bool) (s : string) :
  all_chars p s = true -> Regex.Matches (Regex.Star (Regex.Class p)) s.
Proof.
  induction s as [|c s IH]; simpl; intros H.
  - constructor.
  - apply andb_true_iff in H. destruct H as [H1 H2].
    change (String c s) with (String c EmptyString ++ s).
    constructor; [now constructor | auto].
Qed.

(** ** The package-name validator *)

Lemma class_first_rest (c : ascii) :
  Index.class_first c = true -> Index.class_rest c = true.
Proof.
  unfold Index.class_first, Index.class_rest.
  destruct (Index.range "a" "z" c), (Index.range "0" "9" c),
    (Index.char_is "-" c), (Index.char_is "~" c); simpl;
    try reflexivity; try discriminate.
  intros _. now rewrite !orb_true_r.
Qed.

Lemma pattern_classes :
  Regex.classes_within allowed_char Index.scopedPackagePattern.
Proof.
  unfold allowed_char. simpl.
  repeat split; intros c H;
    rewrite ?(class_first_rest c H), ?H, ?orb_true_r; reflexivity.
Qed.

Lemma upper_not_allowed (c : ascii) :
  is_upper c = true -> allowed_char c = false.
Proof.
  destruct c as [[] [] [] [] [] [] [] []]; vm_compute;
    intros H; try reflexivity; discriminate H.
Qed.

Lemma plain_char_rest (c : ascii) :
  plain_char c = true -> Index.class_rest c = true.
Proof.
  unfold plain_char, Index.class_rest.
  destruct (Index.range "a" "z" c), (Index.range "0" "9" c),
    (Index.char_is "-" c), (Index.char_is "_" c), (Index.char_is "." c);
    simpl; try reflexivity; discriminate.
Qed.

Lemma segment_matches (s : string) :
  segment s = true ->
  Regex.Matches
    (Regex.Seq (Regex.Class Index.class_first)
       (Regex.Star (Regex.Class Index.class_rest))) s.
Proof.
  destruct s as [|c s]; simpl; [discriminate |].
  intros H. apply andb_true_iff in H. destruct H as [H1 H2].
  change (String c s) with (String c EmptyString ++ s).
  constructor; [now constructor | now apply star_class].
Qed.

Lemma plain_name_matches (name : string) :
  segment name = true ->
  Regex.test Index.scopedPackagePattern name = true.
Proof.
  intros H. apply test_spec. unfold Index.scopedPackagePattern.
  change name with (EmptyString ++ name).
  constructor; [apply Regex.MAltR; constructor | now apply segment_matches].
Qed.

Lemma scoped_name_matches (scope name : string) :
  segment scope = true -> segment name = true ->
  Regex.test Index.scopedPackagePattern ("@" ++ scope ++ "/" ++ name) = true.
Proof.
  intros Hs Hn. apply test_spec. unfold Index.scopedPackagePattern.
  replace ("@" ++ scope ++ "/" ++ name)
    with (("@" ++ scope ++ "/") ++ name)
    by (now rewrite !append_assoc).
  constructor; [| now apply segment_matches].
  apply Regex.MAltL.
  constructor; [now constructor |].
  destruct scope as [|c scope]; simpl in Hs; [discriminate |].
  apply andb_true_iff in Hs. destruct Hs as [H1 H2].
  change (String c scope ++ "/")
    with (String c EmptyString ++ (scope ++ "/")).
  constructor; [now constructor |].
  constructor; [now apply star_class | now constructor].
Qed.

Lemma validate_too_long (name : string) :
  214 < String.length name ->
  Index.validatePackageName name
  = Some "Package name must be 214 characters or less".
Proof.
  intros H. unfold Index.validatePackageName, Index.NPM_NAME_MAX_LENGTH.
  destruct name as [|c name]; [simpl in H; lia |].
  cbn [truthy negb].
  apply Nat.ltb_lt in H. now rewrite H.
Qed.

Lemma validate_bad_char (name : string) (c : ascii) :
  occurs c name -> allowed_char c = false ->
  Index.validatePackageName name <> None.
Proof.
  intros Hc Hbad. unfold Index.validatePackageName.
  destruct (negb (truthy (Some name))); [discriminate |].
  destruct (Nat.ltb _ _); [discriminate |].
  destruct (Regex.test Index.scopedPackagePattern name) eqn:T;
    [| discriminate].
  apply test_spec in T.
  pose proof (@Matches_chars allowed_char _ _ T pattern_classes) as Hall.
  rewrite (@all_chars_occurs allowed_char name c Hall Hc) in Hbad.
  discriminate.
Qed.

Lemma validate_accepts (name : string) :
  Regex.test Index.scopedPackagePattern name = true ->
  String.length name <= 214 ->
  Index.array_includes Index.reserved name = false ->
  Index.validatePackageName name = None.
Proof.
  intros T Hlen Hres. unfold Index.validatePackageName.
  destruct name as [|c name];
    [apply test_spec in T; apply nullable_spec in T; discriminate |].
  cbn [truthy negb]. unfold Index.NPM_NAME_MAX_LENGTH.
  assert (Nat.ltb 214 (String.length (String c name)) = false) as ->
    by (apply Nat.ltb_ge; exact Hlen).
  now rewrite T, Hres.
Qed.

(** The cases of the unit tests of the validator. *)
Lemma validatePackageName_unit_tests :
  map Index.validatePackageName
    ["my-package"; "package"; "my-awesome-package"; "package123";
     "my-package-v2"; "my_package"; "my_awesome_package"; "@scope/package";
     "@my-org/my-package"; "@user/package-name"; "my.package";
     "@scope/my.package"; "@my-org/my.awesome.package-name"]
  = repeat None 13
  /\ map Index.validatePackageName
       ["MyPackage"; "my-Package"; "my package"; "my-package!";
        "my@package"; "my#package"; ".mypackage"; "@/package"; "@scope/";
        "scope/package"]
     = repeat must_be_lowercase 10
  /\ Index.validatePackageName (repeat_char "a" 215)
     = Some "Package name must be 214 characters or less".
Proof.
  repeat split; vm_compute; reflexivity.
Qed.

(** C7, as stated, fails: [.mypackage] only has lowercase letters and a dot,
    and the validator rejects it; so it does [_private], and
    [node_modules]. *)
Lemma leading_dot_is_rejected :
  all_chars plain_char ".mypackage" = true
  /\ Index.validatePackageName ".mypackage"
     = Some "Package name must be lowercase and can only contain letters, numbers, hyphens, underscores, and @/ for scoped packages"
  /\ all_chars plain_char "_private" = true
  /\ Index.validatePackageName "_private" <> None.
Proof.
  repeat split; try reflexivity. vm_compute. discriminate.
Qed.

(** C7, amended.  The validator rejects the empty string, every string of
    more than 214 characters, every name with an uppercase letter, every
    name with a character outside lowercase letters, digits, hyphen,
    underscore, dot, tilde and the scope delimiters [@] and [/], and the two
    reserved names.  It accepts every name of at most 214 characters, other
    than the reserved ones, that is a segment or [@scope/segment], where a
    segment is a first character among lowercase letters, digits, hyphen and
    tilde (so neither a dot nor an underscore) followed by lowercase letters,
    digits, hyphens, underscores, dots and tildes.  It accepts the name of
    214 letters [a]. *)
Theorem validatePackageName_rules :
  Index.validatePackageName EmptyString = Some "Package name is required"
  /\ (forall name, 214 < String.length name ->
        Index.validatePackageName name
        = Some "Package name must be 214 characters or less")
  /\ (forall name c, occurs c name -> is_upper c = true ->
        Index.validatePackageName name <> None)
  /\ (forall name c, occurs c name -> allowed_char c = false ->
        Index.validatePackageName name <> None)
  /\ Index.validatePackageName "node_modules"
     = Some (dq ++ "node_modules" ++ dq ++ " is a reserved package name")
  /\ Index.validatePackageName "favicon.ico"
     = Some (dq ++ "favicon.ico" ++ dq ++ " is a reserved package name")
  /\ (forall name, segment name = true -> String.length name <= 214 ->
        name <> "node_modules" -> name <> "favicon.ico" ->
        Index.validatePackageName name = None)
  /\ (forall scope name, segment scope = true -> segment name = true ->
        String.length ("@" ++ scope ++ "/" ++ name) <= 214 ->
        Index.validatePackageName ("@" ++ scope ++ "/" ++ name) = None)
  /\ String.length (repeat_char "a" 214) = 214
  /\ Index.validatePackageName (repeat_char "a" 214) = None.
Proof.
  split; [reflexivity |].
  split; [exact validate_too_long |].
  split; [intros name c Hc Hup; apply (@validate_bad_char name c Hc);
          now apply upper_not_allowed |].
  split; [exact validate_bad_char |].
  split; [vm_compute; reflexivity |].
  split; [vm_compute; reflexivity |].
  split.
  { intros name Hseg Hlen H1 H2. apply validate_accepts; auto.
    - now apply plain_name_matches.
    - unfold Index.array_includes, Index.reserved. simpl.
      apply String.eqb_neq in H1. apply String.eqb_neq in H2.
      now rewrite H1, H2. }
  split.
  { intros scope name Hs Hn Hlen. apply validate_accepts; auto.
    now apply scoped_name_matches. }
  split; vm_compute; reflexivity.
Qed.

(** The rules of C7 on the names of the test suite of the validator. *)
Lemma validatePackageName_rules_witness :
  Index.validatePackageName "my-Package" <> None
  /\ Index.validatePackageName "my package" <> None
  /\ Index.validatePackageName "my_package" = None
  /\ Index.validatePackageName "@my-org/my.awesome.package-name" = None.
Proof.
  destruct validatePackageName_rules
    as (_ & _ & Hup & Hbad & _ & _ & Hplain & Hscoped & _).
  split; [apply (Hup "my-Package" "P"%char); [vm_compute; tauto | reflexivity] |].
  split; [apply (Hbad "my package" " "%char);
          [vm_compute; tauto | reflexivity] |].
  split; [apply Hplain; [reflexivity | simpl; lia | discriminate
                        | discriminate] |].
  apply (Hscoped "my-org" "my.awesome.package-name");
    [reflexivity | reflexivity | simpl; lia].
Defined.

(** ** The resolver *)

(** One step of the symbolic execution of a run, on the hypothesis that
    states its result: split on the next answer or flag the run inspects. *)
Ltac run_step H :=
  match type of H with
  | context [match ?x with _ => _ end] =>
      match x with
      | context [match _ with _ => _ end] => fail 1
      | _ => destruct x eqn:?; cbn in H; try discriminate H
      end
  end.

Lemma step2_configuration_invariant (w : Index.World) (t0 t : Index.trace)
  (c : Index.Choices) :
  Index.step2_configuration w t0 = (Index.Done c, t) ->
  Index.c_useCodecov c = true ->
  Index.c_testRunner c <> none /\ Index.c_setupCI c = true.
Proof.
  unfold Index.step2_configuration, Index.bind, Index.ask, Index.handleCancel,
    Index.emit, Index.ret, Index.exit.
  intros H. cbn in H. repeat run_step H.
  all: inversion H; subst; cbn; intros Hc; try discriminate Hc.
  all: split; [intros E; rewrite E in *; cbn in *; discriminate | reflexivity].
Qed.

(** C6.  In every configuration that the resolver produces, in the
    accept-defaults mode as well as from interactive answers, and whatever
    flags the command line carries, coverage upload is enabled only with a
    test runner and with CI: [useCodecov] is never true when [testRunner] is
    [none] or when [setupCI] is false. *)
Theorem resolved_coverage_requires_tests_and_ci (w : Index.World)
  (finalPackageName : string) (t0 : Index.trace) (config : ProjectConfig)
  (shouldSaveConfig : bool) :
  fst (Index.resolveConfig w finalPackageName t0)
  = Index.Done (config, shouldSaveConfig) ->
  truthyb (useCodecov config) = true ->
  testRunner config <> none /\ truthyb (setupCI config) = true.
Proof.
  unfold Index.resolveConfig. unfold Index.bind at 1.
  destruct (Index.step2_configuration w t0) as [[c|code] t1] eqn:E2;
    [| discriminate].
  unfold Index.bind at 1.
  destruct (Index.step3_metadata w t1) as [[m|code] t2]; [| discriminate].
  unfold Index.bind at 1.
  destruct (Index.step4_packageManager w t2) as [[pm|code] t3];
    [| discriminate].
  cbn. intros H. inversion H; subst. cbn.
  intros Hc. destruct (@step2_configuration_invariant w t0 t1 c E2) as [Hr Hci].
  - now destruct (Index.c_useCodecov c).
  - split; [exact Hr | now rewrite Hci].
Qed.

Lemma resolved_coverage_requires_tests_and_ci_witness :
  fst (Index.resolveConfig (session None) "sample-lib" [])
  = Index.Done (session_config, false)
  /\ truthyb (useCodecov session_config) = true
  /\ testRunner session_config <> none
  /\ truthyb (setupCI session_config) = true.
Proof.
  split; [reflexivity |]. split; [reflexivity |].
  apply (@resolved_coverage_requires_tests_and_ci (session None) "sample-lib"
           [] session_config false); reflexivity.
Defined.

(** ** The command: cancellation and the target directory *)

Lemma preserves_ret {A} (P : Index.trace -> Prop) (a : A) :
  preserves P (Index.ret a).
Proof.
  intros t0 H. exact H.
Qed.

Lemma preserves_exit {A} (P : Index.trace -> Prop) (code : nat) :
  preserves P (@Index.exit A code).
Proof.
  intros t0 H. exact H.
Qed.

Lemma preserves_bind {A B} (P : Index.trace -> Prop) (m : Index.M A)
  (k : A -> Index.M B) :
  preserves P m -> (forall a, preserves P (k a)) ->
  preserves P (Index.bind m k).
Proof.
  intros Hm Hk t0 H. unfold Index.bind.
  specialize (Hm t0 H). destruct (m t0) as [[a|code] t1]; simpl in *.
  - now apply Hk.
  - exact Hm.
Qed.

Lemma preserves_emit (P : Index.trace -> Prop) (e : Index.event) :
  (forall t, P t -> P (t ++ [e])%list) -> preserves P (Index.emit e).
Proof.
  intros He t0 H. now apply He.
Qed.

Lemma no_writes_snoc (e : Index.event) (t : Index.trace) :
  Index.is_write e = false -> no_writes t -> no_writes (t ++ [e])%list.
Proof.
  unfold no_writes, Index.writes. intros He Ht.
  rewrite filter_app, Ht. simpl. now rewrite He.
Qed.

Lemma not_cancelled_snoc (q : Index.question) (e : Index.event)
  (t : Index.trace) :
  e <> Index.Asked q true -> not_cancelled q t ->
  not_cancelled q (t ++ [e])%list.
Proof.
  unfold not_cancelled. intros He Ht Hin.
  apply in_app_or in Hin. destruct Hin as [Hin|[Hin|[]]]; auto.
Qed.

Ltac unfold_run :=
  unfold Index.plan, Index.materialize, Index.step1_packageName,
    Index.resolveConfig, Index.step2_configuration, Index.step3_metadata,
    Index.step4_packageManager, Index.ask_author_fields, Index.ask_optional,
    Index.checkPackageAvailability, Index.readGitConfig,
    Index.install_and_verify,
    Index.createProject, Index.try_exec, Index.mkdir, Index.writeFile,
    Index.when, Index.ask_text;
  cbv zeta.

(** The structure of a computation, for a property of the trace that
    [emit_tac] shows to be kept by each emitted event. *)
Ltac preserves_tac emit_tac :=
  repeat first
    [ apply preserves_ret
    | apply preserves_exit
    | apply preserves_bind; [| intros]
    | apply preserves_emit; intros; emit_tac
    | progress unfold Index.ask, Index.handleCancel
    | match goal with
      | |- preserves _ (match ?x with _ => _ end) => destruct x
      end ].

Lemma plan_no_writes (w : Index.World) : preserves no_writes (Index.plan w).
Proof.
  unfold_run.
  preserves_tac ltac:(apply no_writes_snoc; [reflexivity | assumption]).
Qed.

Lemma step1_no_writes (w : Index.World) :
  preserves no_writes (Index.step1_packageName w).
Proof.
  unfold_run.
  preserves_tac ltac:(apply no_writes_snoc; [reflexivity | assumption]).
Qed.

Lemma materialize_only_asks_install (w : Index.World) (q : Index.question)
  (config : ProjectConfig) (save : bool) (dir : string) :
  q <> Index.QInstall ->
  preserves (not_cancelled q) (Index.materialize w config save dir).
Proof.
  intros Hq. unfold_run.
  preserves_tac ltac:(apply not_cancelled_snoc;
                      [intros E; inversion E; congruence | assumption]).
Qed.

Lemma no_cancel_snoc (e : Index.event) (t : Index.trace) :
  (forall q, e <> Index.Asked q true) -> no_cancel t ->
  no_cancel (t ++ [e])%list.
Proof.
  intros He Ht q. apply not_cancelled_snoc; [apply He | apply Ht].
Qed.

Lemma cancel_safe_ret {A} (a : A) : cancel_safe (Index.ret a).
Proof.
  intros t0 H. exact H.
Qed.

Lemma cancel_safe_exit {A} (code : nat) : cancel_safe (@Index.exit A code).
Proof.
  intros t0 H. left. exact H.
Qed.

Lemma cancel_safe_bind {A B} (m : Index.M A) (k : A -> Index.M B) :
  cancel_safe m -> (forall a, cancel_safe (k a)) ->
  cancel_safe (Index.bind m k).
Proof.
  intros Hm Hk t0 H. unfold Index.bind.
  specialize (Hm t0 H). destruct (m t0) as [[a|code] t1].
  - now apply Hk.
  - exact Hm.
Qed.

Lemma cancel_safe_emit (e : Index.event) :
  (forall q, e <> Index.Asked q true) -> cancel_safe (Index.emit e).
Proof.
  intros He t0 H. now apply no_cancel_snoc.
Qed.

(** A prompt whose answer goes to [handleCancel]: a cancelled prompt leaves
    at once with code 0. *)
Lemma cancel_safe_ask {A B} (q : Index.question) (answer : option A)
  (k : option A -> Index.M B) :
  (forall x, cancel_safe (k (Some x))) ->
  (forall t, k None t = (Index.Exit 0, t)) ->
  cancel_safe (Index.bind (Index.ask q answer) k).
Proof.
  intros Hsome Hnone t0 H.
  unfold Index.bind, Index.ask, Index.emit, Index.ret.
  destruct answer as [x|]; simpl.
  - apply Hsome. apply no_cancel_snoc; [intros q' E; discriminate E | exact H].
  - rewrite Hnone. now right.
Qed.

Ltac cancel_safe_tac :=
  repeat first
    [ apply cancel_safe_ret
    | apply cancel_safe_exit
    | apply cancel_safe_ask; [intros | intros; reflexivity]
    | apply cancel_safe_bind; [| intros]
    | apply cancel_safe_emit; intros ? E; discriminate E
    | progress unfold Index.handleCancel
    | match goal with
      | |- cancel_safe (match ?x with _ => _ end) => destruct x
      end ].

Lemma plan_cancel_safe (w : Index.World) : cancel_safe (Index.plan w).
Proof.
  unfold_run. cancel_safe_tac.
Qed.

Lemma materialize_cancel_safe (w : Index.World) (config : ProjectConfig)
  (save : bool) (dir : string) :
  cancel_safe (Index.materialize w config save dir).
Proof.
  unfold_run. cancel_safe_tac.
Qed.

Lemma action_cancel_safe (w : Index.World) : cancel_safe (Index.action w).
Proof.
  unfold Index.action. cbv zeta.
  destruct (Index.config_flag _); [apply cancel_safe_exit |].
  destruct (Index.resetConfig _).
  - apply cancel_safe_bind; [| intros; apply cancel_safe_exit].
    apply cancel_safe_emit. intros ? E; discriminate E.
  - apply cancel_safe_bind; [apply plan_cancel_safe |].
    intros [[config save] dir].
    destruct (Index.dryRun _); [apply cancel_safe_ret |].
    apply materialize_cancel_safe.
Qed.

(** C8, as stated, fails: when the question about installing the
    dependencies is cancelled, the process exits with code 0 and the project
    files have been written. *)
Lemma cancelled_install_leaves_project :
  fst (Index.run (session None)) = Index.Exit 0
  /\ In (Index.Asked Index.QInstall true) (snd (Index.run (session None)))
  /\ In (Index.WriteFile "/home/dev/sample-lib/package.json")
       (snd (Index.run (session None))).
Proof.
  split; [reflexivity |]. split; vm_compute; tauto.
Qed.

(** C8, amended.  When a prompt is cancelled the process exits with code 0,
    and no project file has been written unless the cancelled prompt is the
    question about installing the dependencies, which is asked once the
    project is created.  When the run reaches the check of the target
    directory (the command is not showing or resetting the stored
    configuration, and step 1 yields the package name) and the directory
    exists, the process exits with code 1 and nothing has been written to
    the file system. *)
Theorem cancellation_and_existing_directory (w : Index.World) :
  (forall q,
      In (Index.Asked q true) (snd (Index.run w)) ->
      fst (Index.run w) = Index.Exit 0
      /\ (q <> Index.QInstall -> Index.writes (snd (Index.run w)) = []))
  /\ (forall name t1,
        Index.config_flag (Index.options w) = false ->
        Index.resetConfig (Index.options w) = false ->
        Index.step1_packageName w [] = (Index.Done name, t1) ->
        Index.existsSync w (Index.path_join (Index.cwd w) name) = true ->
        Index.run w = (Index.Exit 1, t1) /\ Index.writes t1 = []).
Proof.
  assert (no_cancel []) as Hnil by (intros q []).
  split.
  - intros q Hin. split.
    + pose proof (action_cancel_safe w) as Hsafe.
      specialize (Hsafe [] Hnil).
      unfold Index.run in *. destruct (Index.action w []) as [[u|code] t].
      * exfalso. exact (Hsafe q Hin).
      * destruct Hsafe as [Hno| ->]; [exfalso; exact (Hno q Hin) |].
        reflexivity.
    + intros Hq. revert Hin. unfold Index.run, Index.action. cbv zeta.
      destruct (Index.config_flag _); [intros [] |].
      destruct (Index.resetConfig _);
        [intros [E|[]]; discriminate E |].
      unfold Index.bind.
      pose proof (plan_no_writes w) as Hw.
      specialize (Hw [] eq_refl).
      pose proof (plan_cancel_safe w) as Hsafe.
      specialize (Hsafe [] Hnil).
      destruct (Index.plan w []) as [[[[config save] dir]|code] t1];
        simpl in *.
      * destruct (Index.dryRun _); simpl.
        -- intros Hin. exfalso. exact (Hsafe q Hin).
        -- intros Hin. exfalso.
           pose proof (@materialize_only_asks_install w q config save dir
                         Hq) as Hm.
           exact (Hm t1 (Hsafe q) Hin).
      * intros _. exact Hw.
  - intros name t1 Hc Hr Hstep Hex.
    pose proof (step1_no_writes w) as Hw. specialize (Hw [] eq_refl).
    rewrite Hstep in Hw. simpl in Hw. split; [| exact Hw].
    unfold Index.run, Index.action. rewrite Hc, Hr. cbv zeta.
    unfold Index.bind at 1. unfold Index.plan. cbv zeta.
    unfold Index.bind at 1. rewrite Hstep, Hex. reflexivity.
Qed.

Lemma cancellation_and_existing_directory_witness :
  fst (Index.run (session None)) = Index.Exit 0
  /\ Index.run session_in_used_directory
     = (Index.Exit 1,
        [Index.Asked Index.QCreate false; Index.Exec "npm view sample-lib";
         Index.Asked Index.QContinue false]).
Proof.
  split.
  - apply (proj1 (cancellation_and_existing_directory (session None))
             Index.QInstall).
    vm_compute. tauto.
  - apply (proj2 (cancellation_and_existing_directory
                    session_in_used_directory) "sample-lib");
      reflexivity.
Defined.


(** * Further properties of the code *)

(** ** Scripts, dependencies and the tools they name *)

Ltac config_cases config :=
  destruct config as [pn l m tr li gi ci cd cc db pm d a ae gh];
  cbn [packageName language moduleType testRunner useLinting initGit setupCI
       setupCD useCodecov useDependabot packageManager description author
       authorEmail githubUsername].

(** X1.  Every command-line tool that a script of the manifest starts
    with ([tsup], [tsc], [vitest], [jest], [eslint], [prettier], [attw]) is
    provided by a development dependency of the same configuration: in the
    generator with pinned versions its package is a key of
    [generateDevDependencies], and in the generator that asks the registry
    its package is among the packages to fetch. *)
Theorem script_tools_are_dependencies (config : ProjectConfig) :
  tools_provided (PackageJson.generateScripts config)
    (map fst (PackageJson.generateDevDependencies config)) = true
  /\ tools_provided (PackageJsonAsync.generateScripts config)
       (PackageJsonAsync.packagesToFetch config) = true.
Proof.
  config_cases config.
  destruct l, tr, li, ci as [[]|], cd as [[]|], db as [[]|];
    split; vm_compute; reflexivity.
Qed.

(** X2.  The list of packages to look up on the registry names no
    package twice, and a package is on it exactly when its feature is
    configured: [typescript] for TypeScript, the runner for its test runner,
    the coverage provider of Vitest only with CI, [ts-jest] only for Jest
    with TypeScript, [eslint] with linting and its TypeScript parser only
    for TypeScript, and [@clack/prompts] with the publishing workflow. *)
Theorem packagesToFetch_by_feature (config : ProjectConfig) :
  let requested := PackageJsonAsync.packagesToFetch config in
  NoDup requested
  /\ is_member "typescript" requested = language_eqb (language config) typescript
  /\ is_member "vitest" requested = testRunner_eqb (testRunner config) vitest
  /\ is_member "@vitest/coverage-v8" requested
     = testRunner_eqb (testRunner config) vitest && truthyb (setupCI config)
  /\ is_member "jest" requested = testRunner_eqb (testRunner config) jest
  /\ is_member "ts-jest" requested
     = testRunner_eqb (testRunner config) jest
       && language_eqb (language config) typescript
  /\ is_member "eslint" requested = useLinting config
  /\ is_member "@typescript-eslint/parser" requested
     = useLinting config && language_eqb (language config) typescript
  /\ is_member "@clack/prompts" requested = truthyb (setupCD config).
Proof.
  config_cases config.
  destruct l, tr, li, ci as [[]|], cd as [[]|];
    (split; [vm_compute; repeat constructor; cbn; intuition discriminate
            | repeat split; vm_compute; reflexivity]).
Qed.

Lemma find_put (o : PackageJson.scripts_t) (k v k' : string) :
  PackageJson.find (PackageJson.put o k v) k'
  = if String.eqb k k' then Some v else PackageJson.find o k'.
Proof.
  induction o as [|[k0 v0] o IH]; simpl.
  - reflexivity.
  - destruct (String.eqb k0 k) eqn:E0; simpl.
    + apply String.eqb_eq in E0. subst k0.
      now destruct (String.eqb k k').
    + rewrite IH. destruct (String.eqb k0 k') eqn:E1; [| reflexivity].
      apply String.eqb_eq in E1. subst k0.
      rewrite String.eqb_sym in E0. now rewrite E0.
Qed.

Section Lookup.

Variable versionMap : string -> option PackageJsonAsync.VersionResult.

Let step (acc : PackageJson.scripts_t * list string) (pkg : string) :=
  match versionMap pkg with
  | Some result =>
      (PackageJson.put (fst acc) pkg (PackageJsonAsync.version result),
       if truthy (PackageJsonAsync.warning result)
       then push (snd acc) [text (PackageJsonAsync.warning result)]
       else snd acc)
  | None => acc
  end.

Lemma fold_pins (l : list string) (acc : PackageJson.scripts_t * list string)
  (name : string) :
  PackageJson.find (fst (fold_left step l acc)) name
  = if is_member name l
    then match versionMap name with
         | Some result => Some (PackageJsonAsync.version result)
         | None => PackageJson.find (fst acc) name
         end
    else PackageJson.find (fst acc) name.
Proof.
  revert acc. induction l as [|pkg l IH]; intros acc; [reflexivity |].
  cbn [fold_left]. rewrite IH. unfold is_member. cbn [existsb].
  fold (is_member name l).
  destruct (String.eqb name pkg) eqn:E; cbn [orb].
  - apply String.eqb_eq in E. subst pkg. unfold step.
    destruct (versionMap name) as [r|] eqn:Hv; cbn [fst];
      rewrite ?find_put, ?String.eqb_refl;
      now destruct (is_member name l).
  - unfold step.
    destruct (versionMap pkg) as [r|]; cbn [fst]; [| reflexivity].
    rewrite find_put. rewrite String.eqb_sym, E. reflexivity.
Qed.

Lemma fold_warnings (l : list string)
  (acc : PackageJson.scripts_t * list string) :
  snd (fold_left step l acc)
  = (snd acc ++ lookup_warnings versionMap l)%list.
Proof.
  revert acc. induction l as [|pkg l IH]; intros acc; cbn [fold_left].
  - unfold lookup_warnings. simpl. now rewrite app_nil_r.
  - rewrite IH. unfold lookup_warnings. cbn [flat_map]. unfold step.
    destruct (versionMap pkg) as [r|]; cbn [snd]; [| reflexivity].
    destruct (truthy (PackageJsonAsync.warning r)); [| reflexivity].
    unfold push. now rewrite <- app_assoc.
Qed.

End Lookup.

(** X3.  Whatever the registry answers, the development dependencies
    are the requested packages that the registry found, each with the
    version it reported: a package that was not found is left out instead of
    failing the generation, a package that was not requested never appears,
    and the warnings returned are those of the packages found, in the order
    of the request. *)
Theorem devDependencies_follow_the_registry
  (fetchLatestVersions :
     list string -> string -> option PackageJsonAsync.VersionResult)
  (config : ProjectConfig) (name : string) :
  let requested := PackageJsonAsync.packagesToFetch config in
  let result :=
    PackageJsonAsync.generateDevDependencies fetchLatestVersions config in
  PackageJson.find (fst result) name
  = (if is_member name requested
     then option_map PackageJsonAsync.version
            (fetchLatestVersions requested name)
     else None)
  /\ snd result = lookup_warnings (fetchLatestVersions requested) requested.
Proof.
  cbv zeta. unfold PackageJsonAsync.generateDevDependencies. split.
  - rewrite fold_pins. cbn [fst PackageJson.find].
    destruct (is_member name _); [| reflexivity].
    now destruct (fetchLatestVersions _ name).
  - now rewrite fold_warnings.
Qed.

(** The entry of a package in the development dependencies, for a reply of
    the registry. *)
Lemma registry_pin
  (fetchLatestVersions :
     list string -> string -> option PackageJsonAsync.VersionResult)
  (config : ProjectConfig) (name : string) :
  PackageJson.find
    (fst (PackageJsonAsync.generateDevDependencies fetchLatestVersions config))
    name
  = (if is_member name (PackageJsonAsync.packagesToFetch config)
     then option_map PackageJsonAsync.version
            (fetchLatestVersions (PackageJsonAsync.packagesToFetch config)
               name)
     else None).
Proof.
  unfold PackageJsonAsync.generateDevDependencies.
  rewrite fold_pins. cbn [fst PackageJson.find].
  destruct (is_member name _); [| reflexivity].
  now destruct (fetchLatestVersions _ name).
Qed.

(** ** The publish workflow and the build configuration *)

(** X4.  In the publish workflow of every configuration the build
    step is the last step before the publish step, which ends the job and
    carries the npm token; the type check runs only for TypeScript and the
    tests only with a test runner; the workflow never lints and never
    uploads coverage. *)
Theorem generateCDWorkflow_steps (config : ProjectConfig) :
  let workflow := Workflows.generateCDWorkflow config in
  (exists before,
      Workflows.cdSteps config
      = (before
         ++ [lines ["      - name: Build";
                    "        run: npm run build"];
             lines ["      - name: Publish to npm";
                    "        run: npm publish";
                    "        env:";
                    "          NODE_AUTH_TOKEN: ${{ secrets.NPM_TOKEN }}"]])%list)
  /\ includes workflow "npm run typecheck"
     = language_eqb (language config) typescript
  /\ includes workflow "npm test"
     = negb (testRunner_eqb (testRunner config) none)
  /\ includes workflow "npm run lint" = false
  /\ includes workflow "codecov" = false
  /\ includes workflow "NODE_AUTH_TOKEN: ${{ secrets.NPM_TOKEN }}" = true.
Proof.
  split.
  - unfold Workflows.cdSteps, push. cbv zeta.
    match goal with
    | |- exists before, ((?x ++ _) ++ _)%list = _ => exists x
    end.
    now rewrite <- app_assoc.
  - config_cases config. destruct l, tr; vm_compute; repeat split.
Qed.

(** X5.  For a TypeScript package the bundler builds the formats that
    the export map of the manifest offers: the map has an [import] condition
    exactly when tsup builds [esm], a [require] condition exactly when it
    builds [cjs], and always a [types] condition; the formats follow the
    module type and are written into the [format] line of
    [tsup.config.ts]. *)
Theorem tsup_formats_match_export_conditions (config : ProjectConfig)
  (Hts : language config = typescript) :
  let conditions :=
    export_conditions (PackageJson.generatePackageJson config) in
  let formats := Typescript.tsupFormats config in
  is_member "import" conditions = is_member "'esm'" formats
  /\ is_member "require" conditions = is_member "'cjs'" formats
  /\ is_member "types" conditions = true
  /\ formats = match moduleType config with
               | esm => ["'esm'"]
               | commonjs => ["'cjs'"]
               | dual => ["'cjs'"; "'esm'"]
               end
  /\ includes (Typescript.generateTsupConfig config)
       ("format: [" ++ join ", " formats ++ "],") = true.
Proof.
  config_cases config. cbn in Hts. subst l.
  destruct m, gh as [[|? ?]|]; repeat split; vm_compute; reflexivity.
Qed.

Lemma tsup_formats_match_export_conditions_witness :
  language bare_config = typescript
  /\ is_member "import"
       (export_conditions (PackageJson.generatePackageJson bare_config))
     = is_member "'esm'" (Typescript.tsupFormats bare_config).
Proof.
  split; [reflexivity |].
  apply (@tsup_formats_match_export_conditions bare_config). reflexivity.
Defined.

(** X6.  The compiler options follow the module type (CommonJS with
    node resolution for [commonjs], ESNext with bundler resolution
    otherwise); the compiler reads [src] only, skips the test files, and for
    a TypeScript package every entry of the [files] allow-list of the
    manifest, the build output and the root re-export files, is excluded
    from compilation. *)
Theorem tsconfig_follows_format_and_skips_root_files
  (config : ProjectConfig) :
  let ts := Typescript.generateTsConfig config in
  (Typescript.module (Typescript.compilerOptions ts),
   Typescript.moduleResolution (Typescript.compilerOptions ts))
  = match moduleType config with
    | commonjs => ("CommonJS", "node")
    | esm | dual => ("ESNext", "bundler")
    end
  /\ (language config = typescript ->
      incl (PackageJson.generateFilesList config) (Typescript.exclude ts))
  /\ incl ["**/*.test.ts"; "**/*.spec.ts"] (Typescript.exclude ts)
  /\ Typescript.include ts = ["src/**/*"].
Proof.
  config_cases config. split; [now destruct m |].
  split; [| split; [| reflexivity]].
  - cbn. intros ->. destruct m; intros x Hx; vm_compute in Hx |- *; tauto.
  - intros x Hx; vm_compute in Hx |- *; tauto.
Qed.

Lemma tsconfig_follows_format_and_skips_root_files_witness :
  language bare_config = typescript
  /\ incl (PackageJson.generateFilesList bare_config)
       (Typescript.exclude (Typescript.generateTsConfig bare_config)).
Proof.
  split; [reflexivity |].
  apply (proj1 (proj2
           (tsconfig_follows_format_and_skips_root_files bare_config))).
  reflexivity.
Defined.

(** X7.  The ESLint configuration starts from [eslint:recommended]
    and ends with [prettier], so that the formatter has the last word; the
    TypeScript rules and parser are present exactly for TypeScript.  When
    linting is configured, every package that the configuration loads
    (parser, plugin, [eslint-config-prettier]) is a key of the development
    dependencies of the generator with pinned versions; the generator that
    asks the registry requests it, and has it as a development dependency,
    with the reported version, exactly when the registry finds it. *)
Theorem eslint_config_layers (config : ProjectConfig) :
  let eslint := Linting.generateEslintConfig config in
  hd_error (Linting.extends eslint) = Some "eslint:recommended"
  /\ last (Linting.extends eslint) EmptyString = "prettier"
  /\ is_member "plugin:@typescript-eslint/recommended" (Linting.extends eslint)
     = language_eqb (language config) typescript
  /\ Linting.parser eslint
     = (if language_eqb (language config) typescript
        then Some "@typescript-eslint/parser" else None)
  /\ (useLinting config = true ->
      incl (eslint_packages eslint)
        (map fst (PackageJson.generateDevDependencies config))
      /\ incl (eslint_packages eslint)
           (PackageJsonAsync.packagesToFetch config)
      /\ forall fetchLatestVersions x,
           In x (eslint_packages eslint) ->
           PackageJson.find
             (fst (PackageJsonAsync.generateDevDependencies
                     fetchLatestVersions config)) x
           = option_map PackageJsonAsync.version
               (fetchLatestVersions (PackageJsonAsync.packagesToFetch config)
                  x)).
Proof.
  cbv zeta.
  assert (useLinting config = true ->
          incl (eslint_packages (Linting.generateEslintConfig config))
            (map fst (PackageJson.generateDevDependencies config))
          /\ incl (eslint_packages (Linting.generateEslintConfig config))
               (PackageJsonAsync.packagesToFetch config)) as Hincl.
  { config_cases config. intros ->.
    split; intros x Hx; destruct l, tr, ci as [[]|], cd as [[]|];
      vm_compute in Hx |- *; tauto. }
  repeat (split; [config_cases config; now destruct l |]).
  intros Hli. destruct (Hincl Hli) as [Hpinned Hrequested].
  repeat (split; [assumption |]).
  intros fetchLatestVersions x Hx. rewrite registry_pin.
  assert (is_member x (PackageJsonAsync.packagesToFetch config) = true) as ->;
    [| reflexivity].
  unfold is_member. apply existsb_exists. exists x.
  split; [now apply Hrequested | apply String.eqb_refl].
Qed.

Lemma eslint_config_layers_witness :
  useLinting bare_config = true
  /\ incl (eslint_packages (Linting.generateEslintConfig bare_config))
       (PackageJsonAsync.packagesToFetch bare_config).
Proof.
  split; [reflexivity |].
  apply (proj2 (proj2 (proj2 (proj2 (eslint_config_layers bare_config))))).
  reflexivity.
Defined.

(** X8.  With Jest the configuration file uses [ts-jest] exactly for
    TypeScript.  Exactly then [ts-jest] is a key of the development
    dependencies of the generator with pinned versions, and exactly then the
    generator that asks the registry requests it; there [ts-jest] is a
    development dependency, with the reported version, exactly when the
    configuration file uses it and the registry finds it.  The ESM settings
    of the preset are written only for a TypeScript package of module type
    [esm]. *)
Theorem jest_preset_has_its_package (config : ProjectConfig)
  (Hjest : testRunner config = jest) :
  let jestConfig := Testing.generateJestConfig config in
  includes jestConfig "ts-jest"
  = language_eqb (language config) typescript
  /\ is_member "ts-jest" (map fst (PackageJson.generateDevDependencies config))
     = includes jestConfig "ts-jest"
  /\ is_member "ts-jest" (PackageJsonAsync.packagesToFetch config)
     = includes jestConfig "ts-jest"
  /\ (forall fetchLatestVersions,
        PackageJson.find
          (fst (PackageJsonAsync.generateDevDependencies
                  fetchLatestVersions config)) "ts-jest"
        = if includes jestConfig "ts-jest"
          then option_map PackageJsonAsync.version
                 (fetchLatestVersions
                    (PackageJsonAsync.packagesToFetch config) "ts-jest")
          else None)
  /\ includes jestConfig "extensionsToTreatAsEsm"
     = language_eqb (language config) typescript
       && moduleType_eqb (moduleType config) esm.
Proof.
  cbv zeta.
  assert (is_member "ts-jest" (PackageJsonAsync.packagesToFetch config)
          = includes (Testing.generateJestConfig config) "ts-jest")
    as Hrequested.
  { config_cases config. cbn in Hjest. subst tr.
    destruct l, m, li, ci as [[]|], cd as [[]|]; vm_compute; reflexivity. }
  split; [| split; [| split; [exact Hrequested | split]]].
  - config_cases config. cbn in Hjest. subst tr.
    destruct l, m; vm_compute; reflexivity.
  - config_cases config. cbn in Hjest. subst tr.
    destruct l, m, li, ci as [[]|], cd as [[]|]; vm_compute; reflexivity.
  - intros fetchLatestVersions. rewrite registry_pin. now rewrite Hrequested.
  - config_cases config. cbn in Hjest. subst tr.
    destruct l, m; vm_compute; reflexivity.
Qed.

Lemma jest_preset_has_its_package_witness :
  testRunner (workflow_test_config typescript jest true) = jest
  /\ includes
       (Testing.generateJestConfig (workflow_test_config typescript jest true))
       "ts-jest" = true.
Proof.
  split; [reflexivity |].
  apply (@jest_preset_has_its_package
           (workflow_test_config typescript jest true)).
  reflexivity.
Defined.

(** ** The project tree *)

Lemma creates_bind (dir : string) (m1 m2 : Index.M unit)
  (es1 es2 : list entry) :
  creates dir m1 es1 -> creates dir m2 es2 ->
  creates dir (Index.bind m1 (fun _ => m2)) (es1 ++ es2).
Proof.
  intros H1 H2 t0. unfold Index.bind. rewrite H1, H2.
  now rewrite map_app, app_assoc.
Qed.

Lemma creates_when (dir : string) (b : bool) (m : Index.M unit)
  (es : list entry) :
  creates dir m es -> creates dir (Index.when b m) (if b then es else []).
Proof.
  intros H t0. destruct b; simpl; [apply H |].
  unfold Index.ret. now rewrite app_nil_r.
Qed.

Lemma creates_if (dir : string) (b : bool) (m1 m2 : Index.M unit)
  (es1 es2 : list entry) :
  creates dir m1 es1 -> creates dir m2 es2 ->
  creates dir (if b then m1 else m2) (if b then es1 else es2).
Proof.
  now destruct b.
Qed.

Lemma creates_ret (dir : string) : creates dir (Index.ret tt) [].
Proof.
  intros t0. unfold Index.ret. now rewrite app_nil_r.
Qed.

Section HealthyFileSystem.

Variable w : Index.World.
Hypothesis fs_healthy : forall p, Index.fs_ok w p = true.

Lemma creates_mkdir (dir : string) (c : list string) :
  creates dir (Index.mkdir w (entry_path dir c)) [Dir c].
Proof.
  intros t0. unfold Index.mkdir, Index.bind, Index.emit.
  now rewrite fs_healthy.
Qed.

Lemma creates_writeFile (dir : string) (c : list string) :
  creates dir (Index.writeFile w (entry_path dir c)) [File c].
Proof.
  intros t0. unfold Index.writeFile, Index.bind, Index.emit.
  now rewrite fs_healthy.
Qed.

Ltac creates_tac :=
  repeat first
    [ match goal with
      | |- creates ?dir (Index.mkdir _ ?p) _ =>
          match p with
          | dir => apply (creates_mkdir dir [])
          | Index.path_join dir ?a => apply (creates_mkdir dir [a])
          | Index.path_join (Index.path_join dir ?a) ?b =>
              apply (creates_mkdir dir [a; b])
          end
      | |- creates ?dir (Index.writeFile _ ?p) _ =>
          match p with
          | Index.path_join dir ?a => apply (creates_writeFile dir [a])
          | Index.path_join (Index.path_join dir ?a) ?b =>
              apply (creates_writeFile dir [a; b])
          | Index.path_join (Index.path_join (Index.path_join dir ?a) ?b) ?c =>
              apply (creates_writeFile dir [a; b; c])
          end
      end
    | eapply creates_bind
    | eapply creates_when
    | eapply creates_if
    | apply creates_ret ].

(** On a file system that accepts every write, [createProject] succeeds and
    creates the entries of the project in order. *)
Lemma createProject_creates (config : ProjectConfig) (dir : string) :
  creates dir (Index.createProject w config dir) (projectEntries config).
Proof.
  assert (exists es, creates dir (Index.createProject w config dir) es
                     /\ es = projectEntries config) as [es [H ->]];
    [| exact H].
  eexists. split.
  - unfold Index.createProject. cbv zeta. creates_tac.
  - unfold projectEntries, Index.source_ext.
    destruct (language config), (testRunner config); reflexivity.
Qed.

End HealthyFileSystem.

(** ** The command: what a run never does *)

Lemma never_snoc (p : Index.event -> bool) (e : Index.event)
  (t : Index.trace) :
  p e = false -> never p t -> never p (t ++ [e])%list.
Proof.
  intros He Ht e' Hin. apply in_app_or in Hin.
  destruct Hin as [Hin|[<-|[]]]; auto.
Qed.

Lemma never_nil (p : Index.event -> bool) : never p [].
Proof.
  intros e [].
Qed.

Lemma prefix_append (a b : string) : String.prefix a (a ++ b) = true.
Proof.
  apply prefix_spec. now exists b.
Qed.

Lemma is_lookup_view (name : string) : is_lookup ("npm view " ++ name) = true.
Proof.
  unfold is_lookup. now rewrite prefix_append.
Qed.

Lemma lookup_is_not_beyond (name : string) :
  is_exec_beyond_lookup (Index.Exec ("npm view " ++ name)) = false.
Proof.
  unfold is_exec_beyond_lookup. now rewrite is_lookup_view.
Qed.

Ltac never_event :=
  apply never_snoc;
  [ first [ reflexivity | apply lookup_is_not_beyond ] | assumption ].

(** Steps 1 to 5 only ask questions, look the name up on the registry and
    read the git identity. *)
Lemma plan_never (w : Index.World) (p : Index.event -> bool) :
  (forall q b, p (Index.Asked q b) = false) ->
  (forall c, is_lookup c = true -> p (Index.Exec c) = false) ->
  preserves (never p) (Index.plan w).
Proof.
  intros Hask Hexec. unfold_run.
  preserves_tac ltac:(apply never_snoc;
                      [first [ apply Hask
                             | apply Hexec;
                               first [reflexivity | apply is_lookup_view] ]
                      | assumption]).
Qed.










Lemma plan_unattended (w : Index.World) :
  Index.yes (Index.options w) = true ->
  truthy (Index.arg_packageName w) = true ->
  preserves (never is_asked) (Index.plan w).
Proof.
  intros Hyes Harg. unfold_run. rewrite Hyes, Harg. cbn [negb].
  preserves_tac never_event.
Qed.

Lemma materialize_unattended (w : Index.World) (config : ProjectConfig)
  (save : bool) (dir : string) :
  Index.yes (Index.options w) = true ->
  preserves (never is_asked) (Index.materialize w config save dir).
Proof.
  intros Hyes. unfold_run. rewrite Hyes.
  destruct (Index.skipInstall _); cbn [negb andb];
    preserves_tac never_event.
Qed.

(** X11.  With [--yes] and a name on the command line no question is
    asked at all, and the configuration is the default bundle: TypeScript,
    dual format, Vitest, linting, CI without publishing, Codecov or
    Dependabot, no git repository, the detected package manager, no
    metadata, and nothing to save. *)
Theorem unattended_run_asks_nothing (w : Index.World)
  (Hyes : Index.yes (Index.options w) = true)
  (Harg : truthy (Index.arg_packageName w) = true) :
  never is_asked (snd (Index.run w))
  /\ forall name t0,
       Index.resolveConfig w name t0
       = (Index.Done
            (default_bundle name (Index.detectedPackageManager w), false),
          t0).
Proof.
  split.
  - unfold Index.run, Index.action. cbv zeta.
    destruct (Index.config_flag _); [apply never_nil |].
    destruct (Index.resetConfig _); [intros e [<-|[]]; reflexivity |].
    unfold Index.bind.
    pose proof (plan_unattended w Hyes Harg) as Hp.
    specialize (Hp [] (never_nil _)).
    destruct (Index.plan w []) as [[[[config save] dir]|code] t1];
      cbn [snd] in *; [| exact Hp].
    destruct (Index.dryRun _); [exact Hp |].
    pose proof (@materialize_unattended w config save dir Hyes) as Hm.
    exact (Hm t1 Hp).
  - intros name t0.
    unfold Index.resolveConfig, Index.step2_configuration,
      Index.step3_metadata, Index.step4_packageManager.
    rewrite Hyes. reflexivity.
Qed.

Lemma unattended_run_asks_nothing_witness :
  Index.yes (Index.options (unattended "sample-lib" false false)) = true
  /\ truthy (Index.arg_packageName (unattended "sample-lib" false false))
     = true
  /\ never is_asked (snd (Index.run (unattended "sample-lib" false false))).
Proof.
  split; [reflexivity |]. split; [reflexivity |].
  apply (@unattended_run_asks_nothing (unattended "sample-lib" false false));
    reflexivity.
Defined.




(** Steps 6 to 9 only ask the question about installing. *)
Lemma materialize_never (w : Index.World) (config : ProjectConfig)
  (save : bool) (dir : string) (p : Index.event -> bool) :
  (forall b, p (Index.Asked Index.QInstall b) = false) ->
  (forall c, p (Index.Exec c) = false) ->
  (forall path, p (Index.Mkdir path) = false) ->
  (forall path, p (Index.WriteFile path) = false) ->
  (save = true -> p Index.WriteUserConfig = false) ->
  preserves (never p) (Index.materialize w config save dir).
Proof.
  intros Hq He Hm Hw Hs. unfold_run.
  destruct save;
    preserves_tac ltac:(apply never_snoc;
                        [first [apply Hq | apply He | apply Hm | apply Hw
                               | now apply Hs]
                        | assumption]).
Qed.

Lemma step3_save (w : Index.World) (t0 t : Index.trace)
  (m : Index.Metadata) :
  Index.step3_metadata w t0 = (Index.Done m, t) ->
  Index.m_shouldSaveConfig m = true ->
  Index.answer_save w = Some true
  /\ Index.storedConfig w = None
  /\ Index.noSave (Index.options w) = false
  /\ Index.yes (Index.options w) = false.
Proof.
  unfold Index.step3_metadata. cbv zeta.
  destruct (Index.yes (Index.options w)); cbn [negb].
  { unfold Index.ret. intros H; inversion H; subst. discriminate. }
  unfold Index.bind at 1.
  destruct (Index.ask_optional _ _ _ t0) as [[dsc|c0] t1]; [| discriminate].
  destruct (Index.storedConfig w).
  { unfold Index.ret. intros H; inversion H; subst. discriminate. }
  unfold Index.bind at 1.
  destruct (Index.readGitConfig w t1) as [[git|cg] tg]; [| discriminate].
  unfold Index.bind at 1.
  match goal with
  | |- context [match ?k tg with _ => _ end] =>
      destruct (k tg) as [[[[a e] g]|c1] t2]; [| discriminate]
  end.
  unfold Index.bind at 1.
  destruct (Index.noSave (Index.options w)); cbn [negb andb].
  { unfold Index.ret. intros H; inversion H; subst. discriminate. }
  destruct (truthy a || truthy e || truthy g).
  - unfold Index.bind, Index.ask, Index.handleCancel, Index.emit, Index.ret,
      Index.exit.
    destruct (Index.answer_save w) as [[]|]; cbn; intros H; inversion H;
      subst; cbn; intros Hs; try discriminate Hs; auto.
  - unfold Index.ret. intros H; inversion H; subst. discriminate.
Qed.

Lemma plan_save (w : Index.World) (t0 t : Index.trace)
  (config : ProjectConfig) (dir : string) :
  Index.plan w t0 = (Index.Done (config, true, dir), t) ->
  Index.answer_save w = Some true
  /\ Index.storedConfig w = None
  /\ Index.noSave (Index.options w) = false
  /\ Index.yes (Index.options w) = false.
Proof.
  unfold Index.plan. cbv zeta. unfold Index.bind at 1.
  destruct (Index.step1_packageName w t0) as [[name|c1] t1];
    [| discriminate].
  destruct (Index.existsSync w _); [discriminate |].
  unfold Index.bind at 1, Index.resolveConfig.
  unfold Index.bind at 1.
  destruct (Index.step2_configuration w t1) as [[c|c2] t2];
    [| discriminate].
  unfold Index.bind at 1.
  destruct (Index.step3_metadata w t2) as [[m|c3] t3] eqn:H3;
    [| discriminate].
  unfold Index.bind at 1.
  destruct (Index.step4_packageManager w t3) as [[pmv|c4] t4];
    [| discriminate].
  unfold Index.ret at 1. unfold Index.bind at 1.
  match goal with
  | |- context [match ?k t4 with _ => _ end] =>
      destruct (k t4) as [[u|c5] t5]; [| discriminate]
  end.
  unfold Index.ret. intros H.
  apply (@step3_save w t2 t3 m H3). congruence.
Qed.

Lemma plan_with_profile (w : Index.World) (profile : Index.UserConfig)
  (q : Index.question) :
  Index.storedConfig w = Some profile ->
  In q [Index.QAuthor; Index.QEmail; Index.QGithub; Index.QUseGitConfig;
        Index.QSave] ->
  preserves (never (asks q)) (Index.plan w).
Proof.
  intros Hstored Hq. unfold_run. rewrite Hstored.
  destruct Hq as [<-|[<-|[<-|[<-|[<-|[]]]]]];
    preserves_tac never_event.
Qed.

(** The author data is saved only after the user agreed to it. *)
Lemma save_needs_consent (w : Index.World) :
  In Index.WriteUserConfig (snd (Index.run w)) ->
  Index.answer_save w = Some true
  /\ Index.storedConfig w = None
  /\ Index.noSave (Index.options w) = false
  /\ Index.yes (Index.options w) = false.
Proof.
  unfold Index.run, Index.action. cbv zeta.
  destruct (Index.config_flag _); [intros [] |].
  destruct (Index.resetConfig _); [intros [E|[]]; discriminate E |].
  unfold Index.bind.
  pose proof (@plan_never w is_save (fun _ _ => eq_refl)
                (fun _ _ => eq_refl)) as Hp.
  specialize (Hp [] (never_nil _)).
  destruct (Index.plan w []) as [[[[config save] dir]|code] t1] eqn:Hplan;
    cbn [snd] in *.
  - destruct (Index.dryRun _);
      [intros Hin; specialize (Hp _ Hin); discriminate Hp |].
    destruct save; [intros _; exact (@plan_save w [] t1 config dir Hplan) |].
    assert (preserves (never is_save)
              (Index.materialize w config false dir)) as Hm.
    { apply materialize_never; try reflexivity. discriminate. }
    intros Hin. specialize (Hm t1 Hp _ Hin). discriminate Hm.
  - intros Hin. specialize (Hp _ Hin). discriminate Hp.
Qed.

(** X13.  When a stored author profile exists, the questions about the
    author, the e-mail address, the GitHub user, the git identity and about
    saving are never asked, the profile is never written again, and,
    unless [--yes] skips the metadata altogether, the author data of the run
    is the stored profile, field by field. *)
Theorem stored_profile_is_used_verbatim (w : Index.World)
  (profile : Index.UserConfig)
  (Hstored : Index.storedConfig w = Some profile) :
  (forall q,
      In q [Index.QAuthor; Index.QEmail; Index.QGithub; Index.QUseGitConfig;
            Index.QSave] ->
      never (asks q) (snd (Index.run w)))
  /\ ~ In Index.WriteUserConfig (snd (Index.run w))
  /\ (forall t0 m t,
        Index.yes (Index.options w) = false ->
        Index.step3_metadata w t0 = (Index.Done m, t) ->
        Index.m_author m = Index.uc_author profile
        /\ Index.m_authorEmail m = Index.uc_email profile
        /\ Index.m_githubUsername m = Index.uc_github profile
        /\ Index.m_shouldSaveConfig m = false).
Proof.
  split; [| split].
  - intros q Hq. unfold Index.run, Index.action. cbv zeta.
    destruct (Index.config_flag _); [apply never_nil |].
    destruct (Index.resetConfig _); [intros e [<-|[]]; reflexivity |].
    unfold Index.bind.
    pose proof (@plan_with_profile w profile q Hstored Hq) as Hp.
    specialize (Hp [] (never_nil _)).
    destruct (Index.plan w []) as [[[[config save] dir]|code] t1];
      cbn [snd] in *; [| exact Hp].
    destruct (Index.dryRun _); [exact Hp |].
    assert (preserves (never (asks q))
              (Index.materialize w config save dir)) as Hm.
    { apply materialize_never; try reflexivity.
      intros b. destruct Hq as [<-|[<-|[<-|[<-|[<-|[]]]]]]; reflexivity. }
    exact (Hm t1 Hp).
  - intros Hin. destruct (save_needs_consent w Hin) as (_ & Hnone & _).
    congruence.
  - intros t0 m t Hyes. unfold Index.step3_metadata. rewrite Hyes, Hstored.
    cbn [negb]. unfold Index.bind.
    destruct (Index.ask_optional _ _ _ t0) as [[dsc|c3] t4];
      [| discriminate].
    unfold Index.ret. intros H. inversion H; subst. cbn. auto.
Qed.

Lemma stored_profile_is_used_verbatim_witness :
  Index.storedConfig (with_profile (session (Some true)) (Some jane) None)
  = Some jane
  /\ ~ In Index.WriteUserConfig
         (snd (Index.run
                 (with_profile (session (Some true)) (Some jane) None))).
Proof.
  split; [reflexivity |].
  apply (@stored_profile_is_used_verbatim
           (with_profile (session (Some true)) (Some jane) None) jane).
  reflexivity.
Defined.

(** X14.  The author data is written to the user configuration only
    when the user answered yes to the question about saving it; then there
    was no stored profile, the options carried neither [yes] nor [dryRun]
    nor a [noSave] property, and the run went through to its end. *)
Theorem profile_is_saved_only_with_consent (w : Index.World)
  (Hsaved : In Index.WriteUserConfig (snd (Index.run w))) :
  Index.answer_save w = Some true
  /\ Index.storedConfig w = None
  /\ Index.noSave (Index.options w) = false
  /\ Index.yes (Index.options w) = false
  /\ Index.dryRun (Index.options w) = false
  /\ fst (Index.run w) = Index.Done tt.
Proof.
  destruct (save_needs_consent w Hsaved) as (H1 & H2 & H3 & H4).
  repeat (split; [assumption |]).
  revert Hsaved. unfold Index.run, Index.action. cbv zeta.
  destruct (Index.config_flag _); [intros [] |].
  destruct (Index.resetConfig _); [intros [E|[]]; discriminate E |].
  unfold Index.bind.
  pose proof (@plan_never w is_save (fun _ _ => eq_refl)
                (fun _ _ => eq_refl)) as Hp.
  specialize (Hp [] (never_nil _)).
  destruct (Index.plan w []) as [[[[config save] dir]|code] t1];
    cbn [snd fst] in *;
    [| intros Hin; specialize (Hp _ Hin); discriminate Hp].
  destruct (Index.dryRun _);
    [intros Hin; specialize (Hp _ Hin); discriminate Hp |].
  split; [reflexivity |]. revert Hsaved.
  unfold Index.materialize. unfold Index.bind.
  assert (preserves (never is_save) (Index.createProject w config dir))
    as Hc by (unfold_run; preserves_tac never_event).
  specialize (Hc t1 Hp).
  destruct (Index.createProject w config dir t1) as [[u|c1] t2];
    cbn [snd fst] in *;
    [| intros Hin; specialize (Hc _ Hin); discriminate Hc].
  assert (preserves (never is_save) (Index.install_and_verify w config))
    as Hi by (unfold_run; preserves_tac never_event).
  specialize (Hi t2 Hc).
  destruct (Index.install_and_verify w config t2) as [[u'|c2] t3];
    cbn [snd fst] in *;
    [| intros Hin; specialize (Hi _ Hin); discriminate Hi].
  unfold Index.when, Index.emit, Index.ret.
  destruct save; cbn [snd fst]; [reflexivity |].
  intros Hin. specialize (Hi _ Hin). discriminate Hi.
Qed.

Lemma profile_is_saved_only_with_consent_witness :
  In Index.WriteUserConfig
    (snd (Index.run (with_profile (session (Some true)) None (Some true))))
  /\ Index.answer_save (with_profile (session (Some true)) None (Some true))
     = Some true.
Proof.
  assert (In Index.WriteUserConfig
            (snd (Index.run
                    (with_profile (session (Some true)) None (Some true)))))
    as Hin by (vm_compute; tauto).
  split; [exact Hin |].
  apply (@profile_is_saved_only_with_consent
           (with_profile (session (Some true)) None (Some true)) Hin).
Defined.

(** ** The resolved configuration *)

Lemma step2_configuration_shape (w : Index.World) (t0 t : Index.trace)
  (c : Index.Choices) :
  Index.step2_configuration w t0 = (Index.Done c, t) ->
  Index.c_moduleType c = dual
  /\ (Index.c_setupCD c = true -> Index.c_setupCI c = true)
  /\ (Index.c_useDependabot c = true -> Index.c_setupCI c = true).
Proof.
  unfold Index.step2_configuration, Index.bind, Index.ask, Index.handleCancel,
    Index.emit, Index.ret, Index.exit.
  intros H. cbn in H. repeat run_step H.
  all: inversion H; subst; cbn.
  all: repeat split; intros E; try reflexivity; discriminate E.
Qed.

Lemma or_undefined_absent_or_filled (s : option string) :
  absent_or_filled (Index.or_undefined s).
Proof.
  unfold absent_or_filled, Index.or_undefined.
  destruct (truthy s) eqn:E; [right | left]; [| reflexivity].
  now rewrite E.
Qed.

(** X15.  Every configuration that the resolver produces carries the
    final package name, has module type [dual] (the command never asks for
    another), enables the publishing workflow and Dependabot only together
    with CI, and has each optional metadata field absent or not empty: an
    empty answer is never passed on as an empty string. *)
Theorem resolved_config_shape (w : Index.World) (finalPackageName : string)
  (t0 : Index.trace) (config : ProjectConfig) (shouldSaveConfig : bool) :
  fst (Index.resolveConfig w finalPackageName t0)
  = Index.Done (config, shouldSaveConfig) ->
  packageName config = finalPackageName
  /\ moduleType config = dual
  /\ (truthyb (setupCD config) = true -> truthyb (setupCI config) = true)
  /\ (truthyb (useDependabot config) = true
      -> truthyb (setupCI config) = true)
  /\ absent_or_filled (description config)
  /\ absent_or_filled (author config)
  /\ absent_or_filled (authorEmail config)
  /\ absent_or_filled (githubUsername config).
Proof.
  unfold Index.resolveConfig. unfold Index.bind at 1.
  destruct (Index.step2_configuration w t0) as [[c|code] t1] eqn:E2;
    [| discriminate].
  unfold Index.bind at 1.
  destruct (Index.step3_metadata w t1) as [[m|code] t2]; [| discriminate].
  unfold Index.bind at 1.
  destruct (Index.step4_packageManager w t2) as [[pm|code] t3];
    [| discriminate].
  cbn. intros H. inversion H; subst. cbn.
  destruct (@step2_configuration_shape w t0 t1 c E2) as (Hm & Hcd & Hdb).
  repeat split; try apply or_undefined_absent_or_filled; auto.
  - destruct (Index.c_setupCD c); [| discriminate].
    intros _. now rewrite Hcd.
  - destruct (Index.c_useDependabot c); [| discriminate].
    intros _. now rewrite Hdb.
Qed.

Lemma resolved_config_shape_witness :
  fst (Index.resolveConfig (session None) "sample-lib" [])
  = Index.Done (session_config, false)
  /\ moduleType session_config = dual.
Proof.
  split; [reflexivity |].
  apply (@resolved_config_shape (session None) "sample-lib" []
           session_config false).
  reflexivity.
Defined.

(** ** A name given on the command line *)







(** ** The manifest and the project tree *)

Lemma entry_path_join (dir x : string) (c : list string) :
  entry_path dir (x :: c) = Index.path_join dir (join "/" (x :: c)).
Proof.
  unfold entry_path. revert dir x.
  induction c as [|y c IH]; intros dir x; [reflexivity |].
  change (fold_left Index.path_join (x :: y :: c) dir)
    with (fold_left Index.path_join (y :: c) (Index.path_join dir x)).
  rewrite IH. unfold Index.path_join.
  change (join "/" (x :: y :: c)) with (x ++ "/" ++ join "/" (y :: c)).
  now rewrite !append_assoc.
Qed.

Lemma projectEntries_named (config : ProjectConfig) :
  forallb named (projectEntries config) = true.
Proof.
  destruct config as [pn l m tr li gi ci cd cc db pm d a ae gh].
  destruct l, m, tr, li, ci as [[]|], cd as [[]|], db as [[]|];
    reflexivity.
Qed.

Lemma written_relative (config : ProjectConfig) (dir f : string) :
  In f (relative_files (projectEntries config)) ->
  In (Index.WriteFile (Index.path_join dir f))
    (map (entry_event dir) (projectEntries config)).
Proof.
  pose proof (projectEntries_named config) as Hn.
  rewrite forallb_forall in Hn.
  unfold relative_files. rewrite in_flat_map. intros [e [He Hf]].
  specialize (Hn e He). apply in_map_iff. exists e. split; [| exact He].
  destruct e as [c|[|x c]]; try contradiction; [discriminate Hn |].
  destruct Hf as [<-|[]]. cbn [entry_event]. now rewrite entry_path_join.
Qed.

(** X17.  Every file that the manifest points at through [main],
    [module], [types] and the root entry of its export map is written by
    [createProject] for the same configuration, on a file system that
    accepts the writes, and is shipped by the
    [files] allow-list of the manifest, by name or through its directory. *)
Theorem manifest_targets_are_written_and_shipped (w : Index.World)
  (fs_healthy : forall p, Index.fs_ok w p = true)
  (config : ProjectConfig) (dir : string) (t0 : Index.trace)
  (target : string)
  (Htarget :
     In target (entry_targets (PackageJson.generateEntryPoints config))) :
  exists f,
    target = "./" ++ f
    /\ shipped (PackageJson.generateFilesList config) f
    /\ In (Index.WriteFile (Index.path_join dir f))
         (snd (Index.createProject w config dir t0)).
Proof.
  rewrite (@createProject_creates w fs_healthy config dir t0). cbn [snd].
  assert (exists f,
             target = "./" ++ f
             /\ shipped (PackageJson.generateFilesList config) f
             /\ In f (relative_files (projectEntries config)))
    as (f & Ht & Hs & Hf).
  { destruct config as [pn l m tr li gi ci cd cc db pm d a ae gh].
    destruct l, m; cbn in Htarget;
      repeat match goal with
             | H : _ \/ _ |- _ => destruct H as [<-|H]
             | H : False |- _ => destruct H
             end;
      eexists; (split; [reflexivity |]);
      (split;
       [ first [ left; cbn; tauto
               | right; exists "src", "index.js"; split;
                 [cbn; tauto | reflexivity] ]
       | unfold relative_files, projectEntries; cbn;
         destruct tr, li; cbn; tauto ]). }
  exists f. repeat split; try assumption.
  apply in_or_app. right. now apply written_relative.
Qed.

Lemma manifest_targets_are_written_and_shipped_witness :
  (forall p, Index.fs_ok (unattended "sample-lib" false false) p = true)
  /\ In "./index.mjs"
       (entry_targets
          (PackageJson.generateEntryPoints (default_bundle "sample-lib" pnpm)))
  /\ exists f,
       "./index.mjs" = "./" ++ f
       /\ shipped
            (PackageJson.generateFilesList (default_bundle "sample-lib" pnpm))
            f
       /\ In (Index.WriteFile (Index.path_join "/home/dev/sample-lib" f))
            (snd (Index.createProject (unattended "sample-lib" false false)
                    (default_bundle "sample-lib" pnpm)
                    "/home/dev/sample-lib" [])).
Proof.
  assert (forall p, Index.fs_ok (unattended "sample-lib" false false) p
                    = true) as Hfs by reflexivity.
  assert (In "./index.mjs"
            (entry_targets
               (PackageJson.generateEntryPoints
                  (default_bundle "sample-lib" pnpm)))) as Hin
    by (vm_compute; tauto).
  split; [exact Hfs |]. split; [exact Hin |].
  exact (@manifest_targets_are_written_and_shipped
           (unattended "sample-lib" false false) Hfs
           (default_bundle "sample-lib" pnpm) "/home/dev/sample-lib" []
           "./index.mjs" Hin).
Defined.

(** ** The preview of the dry-run mode *)

Lemma concat_cons (p : string) (l : list string) :
  String.concat EmptyString (p :: l) = p ++ String.concat EmptyString l.
Proof.
  destruct l as [|x l]; cbn; [now rewrite append_empty_r | reflexivity].
Qed.

(** Below a directory that stays open, a listing reads as it does alone,
    with the directory before each file. *)
Lemma listed_files_below (n0 : nat) (p : string) (listing : list string) :
  forallb (fun line => Nat.ltb n0 (indent_of line)) listing = true ->
  forall open,
    listed_files (open ++ [(n0, p)]) listing
    = map (append p) (listed_files open listing).
Proof.
  induction listing as [|line listing IH]; intros Hall open;
    [reflexivity |].
  cbn [forallb] in Hall. apply andb_true_iff in Hall as [Hline Hall].
  cbn [listed_files]. cbv zeta.
  rewrite filter_app. cbn [filter fst]. rewrite Hline.
  destruct (ends_with_slash _).
  - rewrite app_comm_cons. now apply IH.
  - cbn [map]. rewrite IH by assumption. f_equal.
    rewrite map_app, rev_app_distr. cbn [map rev snd app].
    rewrite concat_cons. now rewrite append_assoc.
Qed.

Lemma first_word_slash (name : string) :
  first_word name = name ->
  indent_of (name ++ "/") = 0
  /\ drop_indent (name ++ "/") = name ++ "/"
  /\ first_word (name ++ "/") = name ++ "/".
Proof.
  intros H. assert (first_word (name ++ "/") = name ++ "/") as Hw.
  { induction name as [|c name IH]; [reflexivity |].
    cbn in *. destruct (Ascii.eqb_spec c " "%char) as [->|Hc].
    - discriminate H.
    - destruct c as [[] [] [] [] [] [] [] []]; cbn in *;
        try (injection H as H; now rewrite IH);
        try discriminate H. }
  destruct name as [|c name]; [now cbn |].
  cbn in *.
  destruct c as [[] [] [] [] [] [] [] []]; cbn in *;
    try discriminate H; now repeat split.
Qed.

Lemma ends_with_slash_append (name : string) :
  ends_with_slash (name ++ "/") = true.
Proof.
  induction name as [|c name IH]; [reflexivity |].
  cbn. destruct (name ++ "/") eqn:E; [| exact IH].
  destruct name; discriminate E.
Qed.

Lemma is_member_In (x : string) (l : list string) :
  is_member x l = true <-> In x l.
Proof.
  unfold is_member. rewrite existsb_exists. split.
  - intros [y [Hy E]]. apply String.eqb_eq in E. now subst.
  - intros H. exists x. split; [exact H | apply String.eqb_refl].
Qed.

Lemma same_membersb_spec (l1 l2 : list string) :
  same_membersb l1 l2 = true -> same_members l1 l2.
Proof.
  unfold same_membersb, same_members.
  rewrite !andb_true_iff, !forallb_forall, Nat.eqb_eq.
  intros [[H1 H2] Hlen]. split; [| exact Hlen].
  intros x. split; intros H; apply is_member_In; auto.
Qed.

Lemma same_members_map (f g : string -> string) (l1 l2 : list string) :
  (forall x, f x = g x) ->
  same_members l1 l2 -> same_members (map f l1) (map g l2).
Proof.
  intros Hfg [Hin Hlen]. split; [| now rewrite !length_map].
  intros x. rewrite !in_map_iff.
  split; intros [y [<- Hy]]; exists y; split;
    solve [now rewrite Hfg | now apply Hin | reflexivity | now rewrite <- Hfg].
Qed.

Lemma dryRunPreview_head (config : ProjectConfig) (name : string) :
  DryRun.dryRunPreview config name
  = ("  " ++ name ++ "/") :: tl (DryRun.dryRunPreview config EmptyString).
Proof.
  destruct config as [pn l m tr li gi ci cd cc db pm d a ae gh].
  destruct l, m, tr, li, ci as [[]|], cd as [[]|], db as [[]|];
    reflexivity.
Qed.

Lemma dryRunPreview_body (config : ProjectConfig) :
  forallb (fun line => Nat.ltb 2 (indent_of line))
    (tl (DryRun.dryRunPreview config EmptyString))
  && same_membersb
       (listed_files [] (tl (DryRun.dryRunPreview config EmptyString)))
       (relative_files (projectEntries config)) = true.
Proof.
  destruct config as [pn l m tr li gi ci cd cc db pm d a ae gh].
  destruct l, m, tr, li, ci as [[]|], cd as [[]|], db as [[]|];
    vm_compute; reflexivity.
Qed.

(** X18.  The tree that the dry-run mode prints is the tree that
    [createProject] writes: for every configuration, and a name without
    spaces, the files of the listing and the files created on a file system
    that accepts the writes, taken with the package directory before them,
    have the same members and are equally many. *)
Theorem dry_run_preview_lists_the_created_files (w : Index.World)
  (fs_healthy : forall p, Index.fs_ok w p = true)
  (config : ProjectConfig) (name dir : string) (t0 : Index.trace)
  (Hname : first_word name = name) :
  exists es,
    Index.createProject w config dir t0
    = (Index.Done tt, (t0 ++ map (entry_event dir) es)%list)
    /\ same_members
         (listed_files [] (DryRun.dryRunPreview config name))
         (map (fun f => name ++ "/" ++ f) (relative_files es)).
Proof.
  exists (projectEntries config).
  split; [apply (@createProject_creates w fs_healthy config dir t0) |].
  pose proof (dryRunPreview_body config) as Hbody.
  apply andb_true_iff in Hbody as [Hindent Hsame].
  rewrite dryRunPreview_head.
  destruct (@first_word_slash name Hname) as (Hi & Hd & Hw).
  cbn [listed_files]. cbv zeta.
  change (indent_of ("  " ++ name ++ "/")) with (S (S (indent_of (name ++ "/")))).
  change (drop_indent ("  " ++ name ++ "/")) with (drop_indent (name ++ "/")).
  rewrite Hi, Hd, Hw, ends_with_slash_append. cbn [filter].
  change [(2, name ++ "/")]
    with (@nil (nat * string) ++ [(2, (name ++ "/")%string)])%list.
  rewrite (@listed_files_below 2 (name ++ "/") _ Hindent []).
  apply same_members_map; [| now apply same_membersb_spec].
  intros x. now rewrite append_assoc.
Qed.

Lemma dry_run_preview_lists_the_created_files_witness :
  (forall p, Index.fs_ok (unattended "sample-lib" false false) p = true)
  /\ first_word "sample-lib" = "sample-lib"
  /\ exists es,
       Index.createProject (unattended "sample-lib" false false)
         (default_bundle "sample-lib" pnpm) "/home/dev/sample-lib" []
       = (Index.Done tt,
          ([] ++ map (entry_event "/home/dev/sample-lib") es)%list)
       /\ same_members
            (listed_files []
               (DryRun.dryRunPreview (default_bundle "sample-lib" pnpm)
                  "sample-lib"))
            (map (fun f => "sample-lib" ++ "/" ++ f) (relative_files es)).
Proof.
  assert (forall p, Index.fs_ok (unattended "sample-lib" false false) p
                    = true) as Hfs by reflexivity.
  split; [exact Hfs |]. split; [reflexivity |].
  exact (@dry_run_preview_lists_the_created_files
           (unattended "sample-lib" false false) Hfs
           (default_bundle "sample-lib" pnpm) "sample-lib"
           "/home/dev/sample-lib" [] eq_refl).
Defined.

(** ** The README and the scripts *)

Ltac readme_line section command :=
  unfold Readme.generateReadme, lines; cbv zeta;
  apply Substring_join with (x := section);
  [ pick_line
  | apply Substring_line with (n := command); pick_line ].

(** X19.  A command that the README shows for a feature has its script
    in the manifest: with a test runner the README shows [npm test] and the
    manifest has [test], with linting [npm run lint] and [npm run format]
    with [lint] and [format], for TypeScript [npm run check:exports] with
    [check:exports].  The README shows [npm run build] for every
    configuration, whereas the manifest has a [build] script exactly for
    TypeScript. *)
Theorem readme_commands_and_scripts (config : ProjectConfig) :
  Substring "npm run build" (Readme.generateReadme config)
  /\ (PackageJson.has (PackageJson.generateScripts config) "build" = true
      <-> language config = typescript)
  /\ (testRunner config <> none ->
      Substring "npm test" (Readme.generateReadme config)
      /\ PackageJson.has (PackageJson.generateScripts config) "test" = true)
  /\ (useLinting config = true ->
      Substring "npm run lint" (Readme.generateReadme config)
      /\ Substring "npm run format" (Readme.generateReadme config)
      /\ PackageJson.has (PackageJson.generateScripts config) "lint" = true
      /\ PackageJson.has (PackageJson.generateScripts config) "format"
         = true)
  /\ (language config = typescript ->
      Substring "npm run check:exports" (Readme.generateReadme config)
      /\ PackageJson.has (PackageJson.generateScripts config) "check:exports"
         = true).
Proof.
  split; [| split; [| split; [| split]]].
  - unfold Readme.generateReadme. cbv zeta.
    apply Substring_line. pick_line.
  - destruct config as [pn l m tr li gi ci cd cc db pm d a ae gh].
    destruct l, tr, li, cd as [[]|], db as [[]|]; vm_compute;
      split; intros H; solve [reflexivity | discriminate H].
  - intros Htr. split.
    + destruct config as [pn l m tr li gi ci cd cc db pm d a ae gh].
      cbn [testRunner] in Htr.
      destruct tr; try contradiction;
        readme_line (lines ["### Test"; ""; "```bash"; "npm test"; "```"; ""])
                    "npm test".
    + destruct config as [pn l m tr li gi ci cd cc db pm d a ae gh].
      cbn [testRunner] in Htr.
      destruct l, tr, li, cd as [[]|], db as [[]|]; try contradiction;
        reflexivity.
  - intros Hli.
    destruct config as [pn l m tr li gi ci cd cc db pm d a ae gh].
    cbn [useLinting] in Hli. subst li. repeat split.
    + readme_line (lines ["### Lint"; ""; "```bash"; "npm run lint";
                          "npm run format"; "```"; ""]) "npm run lint".
    + readme_line (lines ["### Lint"; ""; "```bash"; "npm run lint";
                          "npm run format"; "```"; ""]) "npm run format".
    + destruct l, tr, cd as [[]|], db as [[]|]; reflexivity.
    + destruct l, tr, cd as [[]|], db as [[]|]; reflexivity.
  - intros Hl.
    destruct config as [pn l m tr li gi ci cd cc db pm d a ae gh].
    cbn [language] in Hl. subst l. split.
    + readme_line (lines ["### Validate Package Exports"; ""; "```bash";
                          "npm run check:exports"; "```"; ""])
                  "npm run check:exports".
    + destruct tr, li, cd as [[]|], db as [[]|]; reflexivity.
Qed.

(** ** After the project is written *)

(** X20.  After the project is written no failing subprocess fails the
    run: installation and verification end normally, or with exit code 0
    when the question about installing is cancelled.  [git init] runs only
    when a repository was asked for, [git add] only after [git init]
    succeeded, and the commit only after [git add] succeeded. *)
Theorem failed_subprocesses_do_not_fail_the_run (w : Index.World)
  (config : ProjectConfig) :
  (fst (Index.install_and_verify w config []) = Index.Done tt
   \/ (fst (Index.install_and_verify w config []) = Index.Exit 0
       /\ Index.answer_install w = None))
  /\ (In (Index.Exec "git init")
         (snd (Index.install_and_verify w config [])) ->
      initGit config = true)
  /\ (In (Index.Exec "git add .")
         (snd (Index.install_and_verify w config [])) ->
      Index.exec_ok w "git init" = true)
  /\ (In (Index.Exec ("git commit -m " ++ dq ++ Index.INITIAL_COMMIT_MESSAGE
                        ++ dq))
         (snd (Index.install_and_verify w config [])) ->
      Index.exec_ok w "git add ." = true).
Proof.
  unfold Index.install_and_verify, Index.try_exec, Index.when.
  cbv zeta.
  destruct config as [pn l m tr li gi ci cd cc db pm d a ae gh].
  cbn [packageManager initGit language].
  destruct (Index.skipInstall (Index.options w)),
    (Index.yes (Index.options w)); cbn [negb andb];
    unfold Index.ask, Index.handleCancel, Index.bind, Index.emit, Index.ret,
      Index.exit;
    destruct (Index.answer_install w) as [[]|];
    destruct pm as [[]|], gi, l;
    destruct (Index.exec_ok w "git init");
    destruct (Index.exec_ok w "git add .");
    cbn;
    repeat split; auto;
    intros H;
    repeat match goal with
           | H : _ \/ _ |- _ => destruct H as [H|H]
           | H : False |- _ => destruct H
           | H : _ = _ |- _ => discriminate H
           end; reflexivity.
Qed.

(** ** The root files and the export map *)

